(** * Auth-Supabase: the client-side authentication state machine

  A shallow embedding of the orchestration logic of the React
  application: the in-memory rate limiter ([src/utils/security.ts]),
  the auth reducer and the provider operations [login],
  [completeMFALogin] and [logout] ([src/context/AuthContext.tsx]), the
  cross-tab relay ([hooks/useSession]), the route guard
  ([ProtectedRoute]) and the login form's submit handler
  ([src/pages/Login.tsx]).

  Conventions.
  - Instants are milliseconds since the epoch, as [Z]; a method that
    reads the clock ([new Date()], [Date.now()]) takes the reading as
    its argument [now].
  - A JS [Map<string, _>] is a [gmap string _]; a method that mutates
    the map returns the new map next to its result.
  - An [async] function is a computation in the monad [M]: it threads
    the provider's store, may throw, and logs every call that leaves
    the component (SDK calls, toasts, broadcasts, navigation).  What
    the remote collaborator answers is read from a [Supabase] record. *)

From Stdlib Require Import ZArith Lia.
From stdpp Require Import base option list gmap strings.

Local Open Scope Z_scope.
Local Open Scope string_scope.
Local Open Scope list_scope.

(** ** Rate limiter ([class RateLimiter]) *)

Module RateLimiter.

(** [{ count: number; lockedUntil: Date | null }] *)
Record AttemptRecord : Type := mkRecord {
  count : Z;
  lockedUntil : option Z
}.

Definition maxAttempts : Z := 5.
Definition lockoutDuration : Z := 15 * 60 * 1000.

(** [isLocked]: the expired record is deleted on the check that finds
    it expired. *)
Definition isLocked (now : Z) (identifier : string)
    (attempts : gmap string AttemptRecord)
    : bool * gmap string AttemptRecord :=
  match attempts !! identifier with
  | None => (false, attempts)
  | Some record =>
      match lockedUntil record with
      | None => (false, attempts)
      | Some until =>
          if now >? until
          then (false, delete identifier attempts)
          else (true, attempts)
      end
  end.

(** [Math.ceil(x / 1000)] for an integer number of milliseconds. *)
Definition ceil_div (x d : Z) : Z := - ((- x) / d).

Definition getRemainingTime (now : Z) (identifier : string)
    (attempts : gmap string AttemptRecord) : Z :=
  match attempts !! identifier with
  | None => 0
  | Some record =>
      match lockedUntil record with
      | None => 0
      | Some until =>
          let remaining := until - now in
          Z.max 0 (ceil_div remaining 1000)
      end
  end.

Definition recordAttempt (now : Z) (identifier : string) (success : bool)
    (attempts : gmap string AttemptRecord) : gmap string AttemptRecord :=
  if success then delete identifier attempts
  else
    let record := default (mkRecord 0 None) (attempts !! identifier) in
    let count' := count record + 1 in
    let record' :=
      if count' >=? maxAttempts
      then mkRecord count' (Some (now + lockoutDuration))
      else mkRecord count' (lockedUntil record) in
    <[identifier := record']> attempts.

Definition getAttemptCount (identifier : string)
    (attempts : gmap string AttemptRecord) : Z :=
  match attempts !! identifier with
  | None => 0
  | Some record => count record
  end.

Definition getRemainingAttempts (identifier : string)
    (attempts : gmap string AttemptRecord) : Z :=
  Z.max 0 (maxAttempts - getAttemptCount identifier attempts).

(** A run of failed attempts, one per clock reading. *)
Definition failures (identifier : string) (times : list Z)
    (attempts : gmap string AttemptRecord) : gmap string AttemptRecord :=
  foldl (fun m t => recordAttempt t identifier false m) attempts times.

(** A run of [isLocked] checks, one per clock reading, each on the map
    the previous one left. *)
Fixpoint checks (identifier : string) (times : list Z)
    (attempts : gmap string AttemptRecord)
    : list bool * gmap string AttemptRecord :=
  match times with
  | [] => ([], attempts)
  | t :: rest =>
      let '(b, m) := isLocked t identifier attempts in
      let '(bs, m') := checks identifier rest m in
      (b :: bs, m')
  end.

End RateLimiter.

(** ** Auth state and its reducer ([authReducer], [initialState]) *)

Module Auth.

(** The SDK's user object, reduced to the fields the code reads. *)
Record SupabaseUser : Type := mkSupabaseUser {
  su_id : string;
  su_email : option string;
  su_email_confirmed_at : option string;
  su_user_metadata : string;
  su_app_metadata : string
}.

(** [types/auth.ts]: [User]. *)
Record User : Type := mkUser {
  id : string;
  email : string;
  user_metadata : string;
  app_metadata : string
}.

(** The SDK's session object ([any] in the source); the code reads
    [session?.user]. *)
Record Session : Type := mkSession {
  access_token : string;
  session_user : option SupabaseUser
}.

Record AuthState : Type := mkAuthState {
  user : option User;
  session : option Session;
  isAuthenticated : bool;
  isLoading : bool;
  error : option string
}.

Inductive AuthAction : Type :=
| SET_USER (payload : option User)
| SET_SESSION (payload : option Session)
| SET_LOADING (payload : bool)
| SET_ERROR (payload : option string)
| SET_SESSION_ID (payload : option string).

(** JS truthiness of [string | null | undefined]. *)
Definition truthy (s : option string) : bool :=
  match s with
  | Some s => negb (String.eqb s "")
  | None => false
  end.

Definition mapSupabaseUser (supabaseUser : option SupabaseUser) : option User :=
  match supabaseUser with
  | None => None
  | Some su =>
      match su_email su with
      | Some e =>
          if String.eqb e "" then None
          else Some (mkUser (su_id su) e (su_user_metadata su) (su_app_metadata su))
      | None => None
      end
  end.

Definition authReducer (state : AuthState) (action : AuthAction) : AuthState :=
  match action with
  | SET_USER payload =>
      mkAuthState payload (session state) (bool_decide (is_Some payload))
                  (isLoading state) (error state)
  | SET_SESSION payload =>
      mkAuthState (user state) payload (isAuthenticated state)
                  (isLoading state) (error state)
  | SET_LOADING payload =>
      mkAuthState (user state) (session state) (isAuthenticated state)
                  payload (error state)
  | SET_ERROR payload =>
      mkAuthState (user state) (session state) (isAuthenticated state)
                  (isLoading state) payload
  | SET_SESSION_ID _ => state
  end.

(** [src/context/AuthContext.tsx] *)
Definition initialState : AuthState :=
  mkAuthState None None false false None.

(** The earlier provider variants kept next to it start loading. *)
Definition initialState_legacy : AuthState :=
  mkAuthState None None false true None.

(** What [AuthProvider] holds: the reducer state and the
    [useState] cell [currentSessionId]. *)
Record Store : Type := mkStore {
  state : AuthState;
  currentSessionId : option string
}.

Definition initialStore : Store := mkStore initialState None.

(** *** Cross-tab messages ([SyncMessage]) *)

Inductive MessageType : Type :=
| AUTH_CHANGE | LOGOUT | LOGIN | PROFILE_UPDATE | SETTINGS_UPDATE.

Record SyncMessage : Type := mkMessage {
  msg_type : MessageType;
  payload : option string
}.

(** *** Calls that leave the component *)

Inductive Effect : Type :=
| ShowLoading (text : string)
| UpdateToast (kind text : string)
| ConsoleError (text : string)
| CallSignInWithPassword (email password : string)
| CallSignOut
| CallGetSession
| CallListFactors
| CallGetAuthenticatorAssuranceLevel
| CallCreateSession (userId : string)
| CallLogActivity (userId eventType : string)
| Broadcast (message : SyncMessage)
| Navigate (to : string) (replace : bool)
| Reload.

(** *** The remote collaborator *)

Record AuthError : Type := mkError { message : string }.

(** A promise settles: it resolves with a value or rejects. *)
Inductive Settled (A : Type) : Type :=
| Resolved (a : A)
| Rejected (e : AuthError).
Arguments Resolved {A} a.
Arguments Rejected {A} e.

(** [{ data: { user, session }, error }] *)
Record SignInResponse : Type := mkSignIn {
  signin_user : option SupabaseUser;
  signin_session : option Session;
  signin_error : option AuthError
}.

Record Factor : Type := mkFactor {
  factor_id : string;
  status : string
}.

(** [{ data: { totp } | null, error }]; only [data] is read. *)
Record ListFactorsResponse : Type := mkFactors {
  factors_data : option (option (list Factor))
}.

(** [{ data: { session }, error }] *)
Record GetSessionResponse : Type := mkGetSession {
  gs_session : option Session;
  gs_error : option AuthError
}.

(** [{ data: { currentLevel, ... } | null, error }] *)
Record AALResponse : Type := mkAAL {
  aal_data : option (option string)
}.

Record SessionRow : Type := mkRow { row_id : string }.

Record Supabase : Type := mkSupabase {
  signInWithPassword : string -> string -> Settled SignInResponse;
  signOut : Settled (option AuthError);
  getSession : Settled GetSessionResponse;
  listFactors : Settled ListFactorsResponse;
  getAuthenticatorAssuranceLevel : Settled AALResponse;
  (** what the [sessions] insert hands back to [createSession], which
      catches every failure and returns [null] *)
  createSession : string -> option SessionRow
}.

(** *** The monad of provider operations *)

Inductive Result (A : Type) : Type :=
| Ok (a : A)
| Throw (e : AuthError).
Arguments Ok {A} a.
Arguments Throw {A} e.

Definition M (A : Type) : Type := Store -> Result A * Store * list Effect.

Definition ret {A} (a : A) : M A := fun s => (Ok a, s, []).

Definition throw {A} (e : AuthError) : M A := fun s => (Throw e, s, []).

Definition bind {A B} (m : M A) (k : A -> M B) : M B :=
  fun s =>
    match m s with
    | (Ok a, s1, t1) =>
        let '(r, s2, t2) := k a s1 in (r, s2, t1 ++ t2)
    | (Throw e, s1, t1) => (Throw e, s1, t1)
    end.

(** [try { body } catch (error) { handler }] *)
Definition try_catch {A} (body : M A) (handler : AuthError -> M A) : M A :=
  fun s =>
    match body s with
    | (Ok a, s1, t1) => (Ok a, s1, t1)
    | (Throw e, s1, t1) =>
        let '(r, s2, t2) := handler e s1 in (r, s2, t1 ++ t2)
    end.

(** [try { body } finally { final }]: [final] runs on both exits and
    the body's outcome stands unless [final] itself throws. *)
Definition try_finally {A} (body : M A) (final : M unit) : M A :=
  fun s =>
    let '(r, s1, t1) := body s in
    match final s1 with
    | (Ok _, s2, t2) => (r, s2, t1 ++ t2)
    | (Throw e, s2, t2) => (Throw e, s2, t1 ++ t2)
    end.

Definition emit (e : Effect) : M unit := fun s => (Ok tt, s, [e]).

Definition dispatch (a : AuthAction) : M unit :=
  fun s => (Ok tt, mkStore (authReducer (state s) a) (currentSessionId s), []).

Definition setCurrentSessionId (v : option string) : M unit :=
  fun s => (Ok tt, mkStore (state s) v, []).

(** [await p], logging the call [e] that produced the promise. *)
Definition await {A} (e : Effect) (p : Settled A) : M A :=
  fun s =>
    match p with
    | Resolved a => (Ok a, s, [e])
    | Rejected err => (Throw err, s, [e])
    end.

Definition when (b : bool) (m : M unit) : M unit :=
  if b then m else ret tt.

Declare Scope auth_scope.
Delimit Scope auth_scope with auth.
Notation "x <- m ;; k" := (bind m (fun x => k))
  (at level 100, m at next level, right associativity) : auth_scope.
Notation "m ;; k" := (bind m (fun _ => k))
  (at level 100, right associativity) : auth_scope.
Local Open Scope auth_scope.

(** [createSession(userId)] followed by the [if (sessionData)] that
    every caller wraps around [setCurrentSessionId]. *)
Definition trackSession (sb : Supabase) (userId : string) : M unit :=
  emit (CallCreateSession userId);;
  match createSession sb userId with
  | Some sessionData => setCurrentSessionId (Some (row_id sessionData))
  | None => ret tt
  end.

Definition logActivity (userId eventType : string) : M unit :=
  emit (CallLogActivity userId eventType).

(** [broadcast] as the provider sees it; its transports are in
    [SessionSync]. *)
Definition broadcast (m : SyncMessage) : M unit := emit (Broadcast m).

(** [aalData?.currentLevel] *)
Definition currentLevel (r : AALResponse) : option string :=
  match aal_data r with
  | Some level => level
  | None => None
  end.

Definition is_aal2 (level : option string) : bool :=
  match level with
  | Some l => String.eqb l "aal2"
  | None => false
  end.

Definition is_verified (f : Factor) : bool := String.eqb (status f) "verified".

(** [factors?.totp?.find((f) => f.status === "verified")] *)
Definition verifiedFactor (r : ListFactorsResponse) : option Factor :=
  match factors_data r with
  | Some (Some totp) => List.find is_verified totp
  | _ => None
  end.

(** [{ needsVerification, needsMFA?, factorId? }] *)
Record LoginResult : Type := mkLoginResult {
  needsVerification : bool;
  needsMFA : option bool;
  factorId : option string
}.

(** [`Welcome back, ${data.user?.email?.split("@")[0] || "User"}!`]:
    the toast text is not modelled beyond its kind. *)
Definition welcome : string := "Welcome back!".

Definition login (sb : Supabase) (email password : string) : M LoginResult :=
  emit (ShowLoading "Logging in...");;
  try_finally
    (try_catch
      (r <- await (CallSignInWithPassword email password)
                  (signInWithPassword sb email password);;
       match signin_error r with
       | Some err =>
           emit (UpdateToast "error" (message err));;
           throw err
       | None =>
           match signin_user r with
           | Some u =>
               if negb (truthy (su_email_confirmed_at u)) then
                 emit (UpdateToast "error" "Please verify your email before logging in.");;
                 _ <- await CallSignOut (signOut sb);;
                 ret (mkLoginResult true None None)
               else
                 fs <- await CallListFactors (listFactors sb);;
                 match verifiedFactor fs with
                 | Some f =>
                     emit (UpdateToast "info" "Please enter your 2FA code");;
                     ret (mkLoginResult false (Some true) (Some (factor_id f)))
                 | None =>
                     dispatch (SET_USER (mapSupabaseUser (signin_user r)));;
                     dispatch (SET_SESSION (signin_session r));;
                     trackSession sb (su_id u);;
                     logActivity (su_id u) "login";;
                     broadcast (mkMessage LOGIN None);;
                     emit (UpdateToast "success" welcome);;
                     ret (mkLoginResult false None None)
                 end
           | None =>
               dispatch (SET_USER (mapSupabaseUser (signin_user r)));;
               dispatch (SET_SESSION (signin_session r));;
               broadcast (mkMessage LOGIN None);;
               emit (UpdateToast "success" welcome);;
               ret (mkLoginResult false None None)
           end
       end)
      (fun err =>
         dispatch (SET_ERROR (Some (message err)));;
         throw err))
    (dispatch (SET_LOADING false)).

Definition completeMFALogin (sb : Supabase) : M bool :=
  try_catch
    (r <- await CallGetSession (getSession sb);;
     match gs_session r with
     | Some sess =>
         match session_user sess with
         | Some u =>
             aal <- await CallGetAuthenticatorAssuranceLevel
                          (getAuthenticatorAssuranceLevel sb);;
             if is_aal2 (currentLevel aal) then
               dispatch (SET_SESSION (Some sess));;
               dispatch (SET_USER (mapSupabaseUser (Some u)));;
               trackSession sb (su_id u);;
               logActivity (su_id u) "login";;
               broadcast (mkMessage LOGIN None);;
               ret true
             else throw (mkError "MFA verification incomplete")
         | None => throw (mkError "No session found")
         end
     | None => throw (mkError "No session found")
     end)
    (fun err =>
       emit (ConsoleError "Complete MFA login error:");;
       throw err).

Definition logout (sb : Supabase) : M unit :=
  emit (ShowLoading "Logging out...");;
  try_finally
    (try_catch
      (dispatch (SET_LOADING true);;
       dispatch (SET_ERROR None);;
       err <- await CallSignOut (signOut sb);;
       match err with
       | Some e =>
           emit (UpdateToast "error" (message e));;
           throw e
       | None =>
           dispatch (SET_USER None);;
           dispatch (SET_SESSION None);;
           setCurrentSessionId None;;
           broadcast (mkMessage LOGOUT None);;
           emit (UpdateToast "success" "Logged out successfully!")
       end)
      (fun e =>
         dispatch (SET_ERROR (Some (message e)));;
         emit (UpdateToast "error" "Failed to logout");;
         throw e))
    (dispatch (SET_LOADING false)).

(** The mount effect of [AuthProvider]: restore the stored session. *)
Definition loadInitialSession (sb : Supabase) : M unit :=
  try_finally
    (try_catch
      (r <- await CallGetSession (getSession sb);;
       dispatch (SET_SESSION (gs_session r));;
       dispatch (SET_USER (mapSupabaseUser
                             (match gs_session r with
                              | Some sess => session_user sess
                              | None => None
                              end)));;
       match gs_session r with
       | Some sess =>
           match session_user sess with
           | Some u => trackSession sb (su_id u)
           | None => ret tt
           end
       | None => ret tt
       end)
      (fun _ =>
         emit (ConsoleError "Error getting session:");;
         dispatch (SET_ERROR (Some "Failed to get session"))))
    (dispatch (SET_LOADING false)).

Definition refreshSession (sb : Supabase) : M unit :=
  try_catch
    (r <- await CallGetSession (getSession sb);;
     match gs_session r with
     | Some sess =>
         dispatch (SET_SESSION (Some sess));;
         dispatch (SET_USER (mapSupabaseUser (session_user sess)))
     | None => ret tt
     end)
    (fun _ => emit (ConsoleError "Error refreshing session:")).

(** The callback [AuthProvider] hands to [useSessionSync]. *)
Definition onSyncMessage (sb : Supabase) (m : SyncMessage) : M unit :=
  match msg_type m with
  | LOGOUT =>
      dispatch (SET_USER None);;
      dispatch (SET_SESSION None);;
      setCurrentSessionId None
  | LOGIN => refreshSession sb
  | _ => ret tt
  end.

(** The events the provider's push subscription delivers. *)
Inductive AuthChangeEvent : Type :=
| SIGNED_IN | SIGNED_OUT | TOKEN_REFRESHED | USER_UPDATED
| MFA_CHALLENGE_VERIFIED | OTHER_EVENT.

(** The listener [AuthProvider] registers with [onAuthStateChange]. *)
Definition onAuthStateChange (event : AuthChangeEvent)
    (sess : option Session) : M unit :=
  match event, sess with
  | SIGNED_IN, Some se =>
      match session_user se with
      | Some u =>
          dispatch (SET_SESSION (Some se));;
          dispatch (SET_USER (mapSupabaseUser (Some u)))
      | None => ret tt
      end
  | SIGNED_OUT, _ =>
      dispatch (SET_SESSION None);;
      dispatch (SET_USER None);;
      setCurrentSessionId None
  | TOKEN_REFRESHED, Some se => dispatch (SET_SESSION (Some se))
  | USER_UPDATED, Some se =>
      dispatch (SET_USER (mapSupabaseUser (session_user se)))
  | MFA_CHALLENGE_VERIFIED, Some se =>
      dispatch (SET_SESSION (Some se));;
      dispatch (SET_USER (mapSupabaseUser (session_user se)))
  | _, _ => ret tt
  end;;
  dispatch (SET_LOADING false).

End Auth.

(** ** Cross-tab relay ([useSessionSync]) *)

Module SessionSync.
Import Auth.
Local Open Scope auth_scope.

(** What the sending tab does to its transports. *)
Inductive TransportOp : Type :=
| PostMessage (m : SyncMessage)
| SetItem (key value : string)
| RemoveItem (key : string).

(** The platform of a tab: is [BroadcastChannel] defined, is [window]
    defined, and what [JSON.parse] makes of a stored text ([None]: it
    throws). *)
Record Platform : Type := mkPlatform {
  hasBroadcastChannel : bool;
  hasWindow : bool;
  JSON_parse : string -> option SyncMessage
}.

Definition storage_key : string := "auth_sync".

(** [broadcast(message)]; [stringify m now] is
    [JSON.stringify({ ...m, timestamp: now })]. *)
Definition broadcast (pf : Platform) (stringify : SyncMessage -> Z -> string)
    (now : Z) (m : SyncMessage) : list TransportOp :=
  (if hasBroadcastChannel pf then [PostMessage m] else []) ++
  (if hasWindow pf && negb (hasBroadcastChannel pf)
   then [SetItem storage_key (stringify m now); RemoveItem storage_key]
   else []).

(** The shared key-value store, and what a write does to it. *)
Definition applyOp (op : TransportOp) (ls : gmap string string) : gmap string string :=
  match op with
  | PostMessage _ => ls
  | SetItem k v => <[k := v]> ls
  | RemoveItem k => delete k ls
  end.

Record StorageEvent : Type := mkStorageEvent {
  key : option string;
  newValue : option string;
  oldValue : option string
}.

(** What reaches another tab. *)
Inductive Delivery : Type :=
| ChannelMessage (m : SyncMessage)
| StorageChanged (ev : StorageEvent).

(** The change notification a write raises in the other tabs (none
    when the write changes nothing). *)
Definition notify (op : TransportOp) (ls : gmap string string) : option Delivery :=
  match op with
  | PostMessage m => Some (ChannelMessage m)
  | SetItem k v =>
      if bool_decide (ls !! k = Some v) then None
      else Some (StorageChanged (mkStorageEvent (Some k) (Some v) (ls !! k)))
  | RemoveItem k =>
      match ls !! k with
      | Some old => Some (StorageChanged (mkStorageEvent (Some k) None (Some old)))
      | None => None
      end
  end.

Fixpoint deliveries (ops : list TransportOp) (ls : gmap string string)
    : list Delivery * gmap string string :=
  match ops with
  | [] => ([], ls)
  | op :: rest =>
      let '(ds, ls') := deliveries rest (applyOp op ls) in
      (match notify op ls with Some d => d :: ds | None => ds end, ls')
  end.

(** [handleMessage]: the callback first, then the per-type handling. *)
Definition handleMessage (onMessage : option (SyncMessage -> M unit))
    (pathname : string) (message : SyncMessage) : M unit :=
  match onMessage with
  | Some callback => callback message
  | None => ret tt
  end;;
  match msg_type message with
  | LOGOUT => emit (Navigate "/login" true)
  | LOGIN =>
      when (String.eqb pathname "/login") (emit (Navigate "/dashboard" true))
  | AUTH_CHANGE => emit Reload
  | _ => ret tt
  end.

(** [handleStorageChange]: the text is parsed and the parsed message
    is dropped (the call to [handleMessage] is commented out in the
    source). *)
Definition handleStorageChange (pf : Platform) (event : StorageEvent) : M unit :=
  if bool_decide (key event = Some storage_key) && truthy (newValue event) then
    match JSON_parse pf (default "" (newValue event)) with
    | Some _message => ret tt
    | None => emit (ConsoleError "Failed to parse storage sync message")
    end
  else ret tt.

(** A listening tab: the channel listener is attached only when the
    channel exists, the storage listener always. *)
Definition receive (pf : Platform) (onMessage : option (SyncMessage -> M unit))
    (pathname : string) (d : Delivery) : M unit :=
  match d with
  | ChannelMessage m =>
      if hasBroadcastChannel pf then handleMessage onMessage pathname m
      else ret tt
  | StorageChanged ev => handleStorageChange pf ev
  end.

Fixpoint receiveAll (pf : Platform) (onMessage : option (SyncMessage -> M unit))
    (pathname : string) (ds : list Delivery) : M unit :=
  match ds with
  | [] => ret tt
  | d :: rest =>
      receive pf onMessage pathname d;;
      receiveAll pf onMessage pathname rest
  end.

End SessionSync.

(** ** Route guard ([ProtectedRoute]) *)

Module ProtectedRoute.
Import Auth.

(** The two [useState] cells of the component. *)
Record Local : Type := mkLocal {
  mfaVerified : option bool;
  checking : bool
}.

Definition mounted : Local := mkLocal None true.

Definition setMfaVerified (v : bool) (l : Local) : Local :=
  mkLocal (Some v) (checking l).

Definition setChecking (v : bool) (l : Local) : Local :=
  mkLocal (mfaVerified l) v.

(** [factors?.totp?.some((f) => f.status === "verified")] *)
Definition hasMFA (r : ListFactorsResponse) : bool :=
  match factors_data r with
  | Some (Some totp) => existsb is_verified totp
  | _ => false
  end.

(** [checkMFAStatus], the body of the effect keyed on [user]: the
    writes it has made to the two cells once it settles. *)
Definition checkMFAStatus (sb : Supabase) (user : option User) (l : Local) : Local :=
  match user with
  | None => setChecking false l
  | Some _ =>
      setChecking false
        match getSession sb with
        | Rejected _ => setMfaVerified false l
        | Resolved r =>
            match gs_error r with
            | Some _ => setChecking false (setMfaVerified false l)
            | None =>
                match gs_session r with
                | None => setChecking false (setMfaVerified false l)
                | Some _ =>
                    match listFactors sb with
                    | Rejected _ => setMfaVerified false l
                    | Resolved factors =>
                        if hasMFA factors then
                          match getAuthenticatorAssuranceLevel sb with
                          | Rejected _ => setMfaVerified false l
                          | Resolved aalData =>
                              if is_aal2 (currentLevel aalData)
                              then setMfaVerified true l
                              else setMfaVerified false l
                          end
                        else setMfaVerified true l
                    end
                end
            end
        end
  end.

Inductive Rendered : Type :=
| Placeholder
| NavigateTo (to : string) (from : string)
| Children.

(** The render function; [location] is what [useLocation] returns. *)
Definition render (user : option User) (isLoading : bool) (location : string)
    (l : Local) : Rendered :=
  if isLoading || checking l then Placeholder
  else match user with
       | None => NavigateTo "/login" location
       | Some _ =>
           match mfaVerified l with
           | Some false => NavigateTo "/mfa-verify" location
           | _ => Children
           end
       end.

(** The guard as it renders under a provider state. *)
Definition view (st : AuthState) (location : string) (l : Local) : Rendered :=
  render (user st) (isLoading st) location l.

End ProtectedRoute.

(** ** Login form ([Login.onSubmit]) *)

Module LoginPage.
Import Auth.

Record LoginFormData : Type := mkForm {
  form_email : string;
  form_password : string
}.

(** The [useState] cells of the page. *)
Record Page : Type := mkPage {
  serverError : option string;
  needsMFA_shown : bool;
  mfaFactorId : option string
}.

(** Everything a submission could read or write: the module-level
    [rateLimiter] singleton, the provider's store, the page. *)
Record World : Type := mkWorld {
  rateLimiter : gmap string RateLimiter.AttemptRecord;
  store : Store;
  page : Page
}.

Definition onSubmit (sb : Supabase) (data : LoginFormData) (w : World)
    : World * list Effect :=
  let page0 := mkPage None (needsMFA_shown (page w)) (mfaFactorId (page w)) in
  match login sb (form_email data) (form_password data) (store w) with
  | (Ok result, st, trace) =>
      if needsVerification result then
        (mkWorld (rateLimiter w) st page0,
         trace ++ [Navigate "/auth/check-email" true])
      else if default false (needsMFA result) && truthy (factorId result) then
        (mkWorld (rateLimiter w) st (mkPage None true (factorId result)), trace)
      else
        (mkWorld (rateLimiter w) st page0, trace)
  | (Throw err, st, trace) =>
      let text := if String.eqb (message err) ""
                  then "Invalid email or password" else message err in
      (mkWorld (rateLimiter w) st
               (mkPage (Some text) (needsMFA_shown (page w)) (mfaFactorId (page w))),
       trace ++ [ConsoleError "Login error:"])
  end.

End LoginPage.

(** ** Observations and concrete scenarios *)

Module Scenarios.
Import Auth.

Definition result_of {A} (o : Result A * Store * list Effect) : Result A := o.1.1.
Definition store_of {A} (o : Result A * Store * list Effect) : Store := o.1.2.
Definition trace_of {A} (o : Result A * Store * list Effect) : list Effect := o.2.

Definition is_broadcast (e : Effect) : bool :=
  match e with Broadcast _ => true | _ => false end.

Definition is_console_error (e : Effect) : bool :=
  match e with ConsoleError _ => true | _ => false end.

(** The assurance level [completeMFALogin] would read from the
    provider: [aalData?.currentLevel], nothing when the query rejects. *)
Definition queriedLevel (sb : Supabase) : option string :=
  match getAuthenticatorAssuranceLevel sb with
  | Resolved r => currentLevel r
  | Rejected _ => None
  end.

(** A store with no identity, whatever its loading flag and error. *)
Definition anonymous (loading : bool) (err : option string) : Store :=
  mkStore (mkAuthState None None false loading err) None.

(** The invariant the reducer keeps. *)
Definition coherent (st : AuthState) : Prop :=
  isAuthenticated st = bool_decide (user st <> None).

(** What [logout] leaves when the remote call did not succeed. *)
Definition logout_failed (e : AuthError) (s : Store) : Store :=
  mkStore (mkAuthState (user (state s)) (session (state s))
                       (isAuthenticated (state s)) false (Some (message e)))
          (currentSessionId s).

(** What [login] leaves when it stops at the second factor: only the
    [finally] block has written. *)
Definition login_deferred (s : Store) : Store :=
  mkStore (authReducer (state s) (SET_LOADING false)) (currentSessionId s).

(** Every run of [m] starts by making the calls [pre], in order. *)
Definition opens_with {A} (pre : list Effect) (m : M A) : Prop :=
  forall s, exists rest, trace_of (m s) = pre ++ rest.

Definition alice_su : SupabaseUser :=
  mkSupabaseUser "u-1" (Some "a@x.com") (Some "2024-01-01T00:00:00Z") "{}" "{}".

Definition alice : User := mkUser "u-1" "a@x.com" "{}" "{}".

Definition alice_session : Session := mkSession "jwt" (Some alice_su).

Definition alice_store : Store :=
  mkStore (mkAuthState (Some alice) (Some alice_session) true false None)
          (Some "row-1").

(** A provider holding a stored primary-only session for an account
    with a verified TOTP factor, and answering sign-in with
    [Invalid login credentials]. *)
Definition stored_aal1 : Supabase :=
  mkSupabase
    (fun _ _ => Resolved (mkSignIn None None (Some (mkError "Invalid login credentials"))))
    (Resolved None)
    (Resolved (mkGetSession (Some alice_session) None))
    (Resolved (mkFactors (Some (Some [mkFactor "totp-1" "verified"]))))
    (Resolved (mkAAL (Some (Some "aal1"))))
    (fun _ => Some (mkRow "row-1")).

(** The same provider with a failing remote sign-out. *)
Definition signout_fails : Supabase :=
  mkSupabase
    (signInWithPassword stored_aal1)
    (Resolved (Some (mkError "Network request failed")))
    (getSession stored_aal1)
    (listFactors stored_aal1)
    (getAuthenticatorAssuranceLevel stored_aal1)
    (createSession stored_aal1).

(** An account that signs in with a confirmed email and a verified
    factor. *)
Definition accepts_with_mfa : Supabase :=
  mkSupabase
    (fun _ _ => Resolved (mkSignIn (Some alice_su) (Some alice_session) None))
    (signOut stored_aal1)
    (getSession stored_aal1)
    (listFactors stored_aal1)
    (getAuthenticatorAssuranceLevel stored_aal1)
    (createSession stored_aal1).

(** Five recorded failures for [a@x.com], one per second. *)
Definition five_failures : gmap string RateLimiter.AttemptRecord :=
  RateLimiter.failures "a@x.com" [1000; 2000; 3000; 4000; 5000] ∅.

Definition locked_world : LoginPage.World :=
  LoginPage.mkWorld five_failures initialStore (LoginPage.mkPage None false None).

Definition sixth_attempt : LoginPage.LoginFormData :=
  LoginPage.mkForm "a@x.com" "wrong6".

Definition old_browser : SessionSync.Platform :=
  SessionSync.mkPlatform false true (fun _ => Some (mkMessage LOGOUT None)).

End Scenarios.

(** ** Runs of the rate limiter *)

Module LimiterRuns.
Import RateLimiter.

(** The two mutating methods, as a caller may interleave them. *)
Inductive Op : Type :=
| Attempt (now : Z) (identifier : string) (success : bool)
| Check (now : Z) (identifier : string).

Definition apply_op (attempts : gmap string AttemptRecord) (op : Op)
    : gmap string AttemptRecord :=
  match op with
  | Attempt now identifier success => recordAttempt now identifier success attempts
  | Check now identifier => (isLocked now identifier attempts).2
  end.

Definition run_ops (ops : list Op) (attempts : gmap string AttemptRecord)
    : gmap string AttemptRecord :=
  foldl apply_op attempts ops.

(** A stored record counts at least one failure and carries an expiry
    exactly when the count has reached the threshold. *)
Definition well_formed (r : AttemptRecord) : Prop :=
  1 <= count r /\ (is_Some (lockedUntil r) <-> maxAttempts <= count r).

End LimiterRuns.

(** ** More of the provider ([AuthContext.tsx]) *)

Module Account.
Import Auth.

(** Calls the remaining operations make beyond those of [Effect]. *)
Inductive Call : Type :=
| Known (e : Effect)
| CallSignUp (email password : string)
| CallDeleteSession (sessionId : string)
| CallDeleteOtherSessions (userId currentSessionId : string)
| ShowError (fallback : string).

Definition MX (A : Type) : Type := Store -> Result A * Store * list Call.

Definition result_x {A} (o : Result A * Store * list Call) : Result A := o.1.1.
Definition store_x {A} (o : Result A * Store * list Call) : Store := o.1.2.
Definition calls_x {A} (o : Result A * Store * list Call) : list Call := o.2.

Definition lift {A} (m : M A) : MX A :=
  fun s => let '(r, s1, t) := m s in (r, s1, map Known t).

Definition xret {A} (a : A) : MX A := fun s => (Ok a, s, []).

Definition xthrow {A} (e : AuthError) : MX A := fun s => (Throw e, s, []).

Definition xcall (c : Call) : MX unit := fun s => (Ok tt, s, [c]).

Definition xbind {A B} (m : MX A) (k : A -> MX B) : MX B :=
  fun s =>
    match m s with
    | (Ok a, s1, t1) =>
        let '(r, s2, t2) := k a s1 in (r, s2, t1 ++ t2)
    | (Throw e, s1, t1) => (Throw e, s1, t1)
    end.

Definition xtry_catch {A} (body : MX A) (handler : AuthError -> MX A) : MX A :=
  fun s =>
    match body s with
    | (Ok a, s1, t1) => (Ok a, s1, t1)
    | (Throw e, s1, t1) =>
        let '(r, s2, t2) := handler e s1 in (r, s2, t1 ++ t2)
    end.

Definition xtry_finally {A} (body : MX A) (final : MX unit) : MX A :=
  fun s =>
    let '(r, s1, t1) := body s in
    match final s1 with
    | (Ok _, s2, t2) => (r, s2, t1 ++ t2)
    | (Throw e, s2, t2) => (Throw e, s2, t1 ++ t2)
    end.

(** The closure's view of the provider at the time of the call. *)
Definition xread : MX Store := fun s => (Ok s, s, []).

Declare Scope account_scope.
Delimit Scope account_scope with account.
Notation "x <- m ;; k" := (xbind m (fun x => k))
  (at level 100, m at next level, right associativity) : account_scope.
Notation "m ;; k" := (xbind m (fun _ => k))
  (at level 100, right associativity) : account_scope.
Local Open Scope account_scope.

(** [{ data: { user, session }, error }] of [signUp];
    [signup_identities] is [data.user?.identities?.length]. *)
Record SignUpResponse : Type := mkSignUp {
  signup_user : option SupabaseUser;
  signup_identities : option nat;
  signup_session : option Session;
  signup_error : option AuthError
}.

Record RegisterResult : Type := mkRegisterResult {
  reg_needsVerification : bool;
  reg_email : string
}.

(** [!data.session || data.user?.identities?.length === 0] *)
Definition signup_needsVerification (r : SignUpResponse) : bool :=
  match signup_session r with
  | None => true
  | Some _ =>
      match signup_identities r with
      | Some O => true
      | _ => false
      end
  end.

Definition register (sb : Supabase)
    (signUp : string -> string -> Settled SignUpResponse)
    (email password : string) : MX RegisterResult :=
  lift (emit (ShowLoading "Creating your account..."));;
  xtry_finally
    (xtry_catch
      (lift (dispatch (SET_LOADING true));;
       lift (dispatch (SET_ERROR None));;
       xcall (CallSignUp email password);;
       match signUp email password with
       | Rejected err => xthrow err
       | Resolved r =>
           match signup_error r with
           | Some err =>
               lift (emit (UpdateToast "error" (message err)));;
               xthrow err
           | None =>
               if signup_needsVerification r then
                 lift (emit (UpdateToast "success"
                               "Account created! Check your email to verify."));;
                 xret (mkRegisterResult true email)
               else
                 lift (dispatch (SET_USER (mapSupabaseUser (signup_user r))));;
                 lift (dispatch (SET_SESSION (signup_session r)));;
                 match signup_user r with
                 | Some u =>
                     lift (trackSession sb (su_id u));;
                     lift (logActivity (su_id u) "login")
                 | None => xret tt
                 end;;
                 lift (emit (UpdateToast "success" "Account created successfully!"));;
                 xret (mkRegisterResult false email)
           end
       end)
      (fun err =>
         xcall (ShowError "Registration failed. Please try again.");;
         lift (dispatch (SET_ERROR (Some (message err))));;
         xthrow err))
    (lift (dispatch (SET_LOADING false))).

Definition deleteUserAccount (sb : Supabase) : MX unit :=
  lift (emit (ShowLoading "Deleting account..."));;
  xtry_catch
    (now <- xread;;
     match user (state now) with
     | Some u => lift (logActivity (id u) "logout")
     | None => xret tt
     end;;
     (if truthy (currentSessionId now)
      then xcall (CallDeleteSession (default "" (currentSessionId now)))
      else xret tt);;
     err <- lift (await CallSignOut (signOut sb));;
     match err with
     | Some e =>
         lift (emit (UpdateToast "error" (message e)));;
         xthrow e
     | None =>
         lift (dispatch (SET_USER None));;
         lift (dispatch (SET_SESSION None));;
         lift (setCurrentSessionId None);;
         lift (broadcast (mkMessage LOGOUT None));;
         lift (emit (UpdateToast "success" "Account deleted successfully!"))
     end)
    (fun e =>
       xcall (ShowError "Failed to delete account.");;
       xthrow e).

Definition signOutAllOtherSessions : MX unit :=
  lift (emit (ShowLoading "Signing out other sessions..."));;
  xtry_catch
    (now <- xread;;
     match user (state now) with
     | Some u =>
         if truthy (currentSessionId now) then
           xcall (CallDeleteOtherSessions (id u)
                    (default "" (currentSessionId now)));;
           lift (logActivity (id u) "logout");;
           lift (emit (UpdateToast "success" "All other sessions signed out!"))
         else xthrow (mkError "No active session")
     | None => xthrow (mkError "No active session")
     end)
    (fun e =>
       lift (emit (UpdateToast "error" "Failed to sign out other sessions"));;
       xthrow e).

(** [{ enrolled, factorId? }] *)
Record MFAStatus : Type := mkMFAStatus {
  enrolled : bool;
  status_factorId : option string
}.

Local Close Scope account_scope.
Local Open Scope auth_scope.

(** [getMFAStatus]; [listError] is the [error] half of the
    [listFactors] answer, which [login] does not read.  [data.totp[0]]
    on a missing [data] or [totp] is a [TypeError], caught like the
    rest. *)
Definition getMFAStatus (sb : Supabase) (listError : option AuthError)
    : M MFAStatus :=
  try_catch
    (r <- await CallListFactors (listFactors sb);;
     match listError with
     | Some e => throw e
     | None =>
         match factors_data r with
         | Some (Some totp) =>
             ret (mkMFAStatus
                    (match head totp with
                     | Some f => is_verified f
                     | None => false
                     end)
                    (factor_id <$> head totp))
         | _ => throw (mkError "TypeError")
         end
     end)
    (fun _ =>
       emit (ConsoleError "Get MFA status error:");;
       ret (mkMFAStatus false None)).

End Account.

(** ** The provider as a whole *)

Module Provider.
Import Auth Scenarios Account.

(** [m] keeps [P] of the reducer state. *)
Definition keeps {A} (P : AuthState -> Prop) (m : M A) : Prop :=
  forall s, P (state s) -> P (state (store_of (m s))).

Definition xkeeps {A} (P : AuthState -> Prop) (m : MX A) : Prop :=
  forall s, P (state s) -> P (state (store_x (m s))).

(** Everything that writes to the store; each step comes with the
    answers the remote side gives during it. *)
Inductive Operation : Type :=
| Login (email password : string)
| Logout
| CompleteMFALogin
| LoadInitialSession
| SyncMessageReceived (m : SyncMessage)
| AuthStateChanged (event : AuthChangeEvent) (sess : option Session)
| GetMFAStatus (listError : option AuthError)
| Register (signUp : string -> string -> Settled SignUpResponse)
           (email password : string)
| DeleteUserAccount
| SignOutAllOtherSessions.

Definition perform (s : Store) (step : Supabase * Operation) : Store :=
  let '(sb, op) := step in
  match op with
  | Login email password => store_of (login sb email password s)
  | Logout => store_of (logout sb s)
  | CompleteMFALogin => store_of (completeMFALogin sb s)
  | LoadInitialSession => store_of (loadInitialSession sb s)
  | SyncMessageReceived m => store_of (onSyncMessage sb m s)
  | AuthStateChanged event sess => store_of (onAuthStateChange event sess s)
  | GetMFAStatus listError => store_of (getMFAStatus sb listError s)
  | Register signUp email password => store_x (register sb signUp email password s)
  | DeleteUserAccount => store_x (deleteUserAccount sb s)
  | SignOutAllOtherSessions => store_x (signOutAllOtherSessions s)
  end.

Definition run (script : list (Supabase * Operation)) (s : Store) : Store :=
  foldl perform s script.

End Provider.

(** ** Public routes and the second-factor screen *)

Module Screens.
Import Auth LoginPage.

(** [PublicRoute] of [App.tsx]. *)
Inductive PublicRendered : Type :=
| LoadingScreen
| ToDashboard
| PublicChildren.

Definition PublicRoute (isAuthenticated isLoading : bool) : PublicRendered :=
  if isLoading then LoadingScreen
  else if isAuthenticated then ToDashboard
  else PublicChildren.


(** [Login.handleMFABack]: the sign-out is started and not awaited. *)
Definition handleMFABack (w : World) : World * list Effect :=
  (mkWorld (rateLimiter w) (store w) (mkPage None false None), [CallSignOut]).


End Screens.

(** ** Further scenarios *)

Module MoreScenarios.
Import Auth Scenarios.

(** The stored session after the second factor. *)
Definition stored_aal2 : Supabase :=
  mkSupabase
    (signInWithPassword accepts_with_mfa)
    (signOut stored_aal1)
    (getSession stored_aal1)
    (listFactors stored_aal1)
    (Resolved (mkAAL (Some (Some "aal2"))))
    (createSession stored_aal1).

(** An account whose first TOTP factor was never verified and whose
    second one is. *)
Definition second_factor_verified : Supabase :=
  mkSupabase
    (signInWithPassword accepts_with_mfa)
    (signOut stored_aal1)
    (getSession stored_aal1)
    (Resolved (mkFactors (Some (Some [mkFactor "totp-0" "unverified";
                                      mkFactor "totp-1" "verified"]))))
    (getAuthenticatorAssuranceLevel stored_aal1)
    (createSession stored_aal1).

(** The factor listing answers with an error, that is without data. *)
Definition factors_unavailable : Supabase :=
  mkSupabase
    (signInWithPassword accepts_with_mfa)
    (signOut stored_aal1)
    (getSession stored_aal1)
    (Resolved (mkFactors None))
    (getAuthenticatorAssuranceLevel stored_aal1)
    (createSession stored_aal1).

(** The store after an operation that rejected with [e] from [s]: the
    identity is kept, the message is recorded, loading is off. *)
Definition failed_with (e : AuthError) (s : Store) : Store :=
  mkStore (mkAuthState (user (state s)) (session (state s))
                       (isAuthenticated (state s)) false (Some (message e)))
          (currentSessionId s).

(** The store after [login] or [completeMFALogin] has committed [u]
    with session [se]: [currentSessionId] follows the tracking row when
    one came back. *)
Definition committed (sb : Supabase) (u : SupabaseUser) (se : option Session)
    (loading : bool) (err : option string) (s : Store) : Store :=
  mkStore (mkAuthState (mapSupabaseUser (Some u)) se
                       (bool_decide (is_Some (mapSupabaseUser (Some u))))
                       loading err)
          (match createSession sb (su_id u) with
           | Some row => Some (row_id row)
           | None => currentSessionId s
           end).

Definition is_call_createSession (e : Effect) : bool :=
  match e with CallCreateSession _ => true | _ => false end.

Definition is_navigate (e : Effect) : bool :=
  match e with Navigate _ _ => true | _ => false end.


End MoreScenarios.

(** * Properties *)

(** ** Rate limiter *)

Section RateLimiterFacts.
Import RateLimiter.

Implicit Types (id : string) (m : gmap string AttemptRecord) (ts cs : list Z).

Lemma failures_snoc id ts t m :
  failures id (ts ++ [t]) m = recordAttempt t id false (failures id ts m).
Proof. unfold failures. by rewrite foldl_app. Qed.

(** The record of [id] after a run of failures from no record: the
    count is the length of the run, and the expiry is stamped from the
    last failure once the run has five or more. *)
Lemma failures_lookup id ts t m :
  m !! id = None ->
  failures id (ts ++ [t]) m !! id =
    Some (mkRecord (Z.of_nat (length ts) + 1)
            (if Z.of_nat (length ts) + 1 >=? maxAttempts
             then Some (t + lockoutDuration) else None)).
Proof.
  intros Hm. revert t.
  induction ts as [|t' ts IH] using rev_ind; intros t.
  - cbn. unfold recordAttempt. rewrite Hm. cbn. by rewrite lookup_insert_eq.
  - rewrite failures_snoc. unfold recordAttempt.
    rewrite IH, lookup_insert_eq. unfold default, maxAttempts.
    cbn [from_option Datatypes.id count lockedUntil].
    rewrite length_app. cbn [length].
    replace (Z.of_nat (length ts + 1)) with (Z.of_nat (length ts) + 1) by lia.
    destruct (Z.geb_spec (Z.of_nat (length ts) + 1 + 1) 5) as [H1|H1];
      [reflexivity|].
    destruct (Z.geb_spec (Z.of_nat (length ts) + 1) 5) as [H2|H2]; [lia|].
    reflexivity.
Qed.

Lemma isLocked_no_expiry now id m c :
  m !! id = Some (mkRecord c None) -> isLocked now id m = (false, m).
Proof. intros H. unfold isLocked. by rewrite H. Qed.

Lemma isLocked_before now id m c until :
  m !! id = Some (mkRecord c (Some until)) -> now <= until ->
  isLocked now id m = (true, m).
Proof.
  intros H Hle. unfold isLocked. rewrite H. cbn.
  destruct (Z.gtb_spec now until); [lia | reflexivity].
Qed.

Lemma isLocked_after now id m c until :
  m !! id = Some (mkRecord c (Some until)) -> until < now ->
  isLocked now id m = (false, delete id m).
Proof.
  intros H Hlt. unfold isLocked. rewrite H. cbn.
  destruct (Z.gtb_spec now until); [reflexivity | lia].
Qed.

Lemma isLocked_absent now id m :
  m !! id = None -> isLocked now id m = (false, m).
Proof. intros H. unfold isLocked. by rewrite H. Qed.

Lemma checks_before id m c until cs :
  m !! id = Some (mkRecord c (Some until)) ->
  Forall (fun t => t <= until) cs ->
  checks id cs m = (repeat true (length cs), m).
Proof.
  intros H Hall. induction Hall as [|t cs Ht _ IH]; [reflexivity|].
  cbn. rewrite (isLocked_before _ _ _ _ _ H Ht), IH. reflexivity.
Qed.

Lemma checks_absent id m cs :
  m !! id = None -> checks id cs m = (repeat false (length cs), m).
Proof.
  intros H. induction cs as [|t cs IH]; [reflexivity|].
  cbn. rewrite (isLocked_absent _ _ _ H), IH. reflexivity.
Qed.

Lemma checks_app id cs1 cs2 m :
  checks id (cs1 ++ cs2) m =
    let '(b1, m1) := checks id cs1 m in
    let '(b2, m2) := checks id cs2 m1 in
    (b1 ++ b2, m2).
Proof.
  revert m. induction cs1 as [|t cs1 IH]; intros m; cbn.
  - by destruct (checks id cs2 m).
  - destruct (isLocked t id m) as [b m'] eqn:E. rewrite IH.
    destruct (checks id cs1 m') as [b1 m1].
    by destruct (checks id cs2 m1).
Qed.

Lemma ceil_div_bounds x :
  0 < x <= 900000 -> 1 <= ceil_div x 1000 <= 900.
Proof.
  intros [H1 H2]. unfold ceil_div.
  assert (- x / 1000 < 0) by (apply Z.div_lt_upper_bound; lia).
  assert (-900 <= - x / 1000) by (apply Z.div_le_lower_bound; lia).
  lia.
Qed.

End RateLimiterFacts.

Section RateLimiterClaims.
Import RateLimiter.

Implicit Types (id : string) (m : gmap string AttemptRecord).

(** C6. From no record for [id], fewer than five failed attempts leave
    [isLocked id] false; after exactly five, at instants [t1 .. t5],
    every check made up to and including the instant
    [t5 + 15 minutes] returns true and leaves the record in place, and
    the first check after that instant returns false (it discards the
    record, so the checks that follow return false as well). *)
Theorem lockout_after_five_failures id m t1 t2 t3 t4 t5 :
  m !! id = None ->
  let locked := failures id [t1; t2; t3; t4; t5] m in
  let expiry := t5 + 15 * 60 * 1000 in
  (forall ts now, (length ts < 5)%nat ->
      (isLocked now id (failures id ts m)).1 = false) /\
  (forall cs, Forall (fun c => c <= expiry) cs ->
      checks id cs locked = (repeat true (length cs), locked)) /\
  (forall cs c later, Forall (fun c => c <= expiry) cs -> expiry < c ->
      (checks id (cs ++ c :: later) locked).1
        = repeat true (length cs) ++ false :: repeat false (length later)).
Proof.
  intros Hm locked expiry.
  assert (Hlocked : locked !! id = Some (mkRecord 5 (Some expiry))).
  { subst locked expiry.
    change [t1; t2; t3; t4; t5] with ([t1; t2; t3; t4] ++ [t5]).
    rewrite (failures_lookup _ _ _ _ Hm). reflexivity. }
  split; [|split].
  - intros ts now Hlen.
    destruct ts as [|t ts _] using rev_ind.
    + cbn. by rewrite (isLocked_absent _ _ _ Hm).
    + rewrite length_app in Hlen. cbn in Hlen.
      erewrite isLocked_no_expiry; [reflexivity|].
      rewrite (failures_lookup _ _ _ _ Hm). unfold maxAttempts.
      destruct (Z.geb_spec (Z.of_nat (length ts) + 1) 5); [lia|reflexivity].
  - intros cs Hcs. by eapply checks_before.
  - intros cs c later Hcs Hc.
    rewrite checks_app, (checks_before _ _ _ _ _ Hlocked Hcs).
    cbn [checks]. rewrite (isLocked_after _ _ _ _ _ Hlocked Hc).
    rewrite checks_absent by apply lookup_delete_eq. reflexivity.
Qed.

Lemma lockout_after_five_failures_witness :
  (∅ : gmap string AttemptRecord) !! "a@x.com" = None /\
  (checks "a@x.com" [5000; 905000; 905001; 905002]
     (failures "a@x.com" [1000; 2000; 3000; 4000; 5000] ∅)).1
    = [true; true; false; false].
Proof.
  split; [reflexivity|].
  destruct (lockout_after_five_failures "a@x.com" ∅ 1000 2000 3000 4000 5000
              (lookup_empty _)) as (_ & _ & H).
  apply (H [5000; 905000] 905001 [905002]).
  - repeat constructor; lia.
  - lia.
Defined.

(** C10. Once the count of [id] is at or above the threshold, a
    further failed attempt at instant [now] stores the count plus one
    and the expiry [now + 15 minutes], whatever expiry was stored
    before; every check up to that new expiry finds [id] locked. *)
Theorem further_failure_restamps id m r now :
  m !! id = Some r ->
  count r >= maxAttempts ->
  let m' := recordAttempt now id false m in
  m' !! id = Some (mkRecord (count r + 1) (Some (now + 15 * 60 * 1000))) /\
  (forall c, c <= now + 15 * 60 * 1000 -> isLocked c id m' = (true, m')).
Proof.
  intros Hr Hc m'.
  assert (H : m' !! id = Some (mkRecord (count r + 1) (Some (now + 15 * 60 * 1000)))).
  { subst m'. unfold recordAttempt. rewrite Hr, lookup_insert_eq.
    unfold default, maxAttempts in *. cbn [from_option Datatypes.id].
    destruct (Z.geb_spec (count r + 1) 5); [reflexivity|lia]. }
  split; [exact H|].
  intros c Hle. by eapply isLocked_before.
Qed.

Lemma further_failure_restamps_witness :
  (recordAttempt 600000 "a@x.com" false Scenarios.five_failures) !! "a@x.com"
    = Some (mkRecord 6 (Some 1500000)).
Proof.
  refine (proj1 (further_failure_restamps "a@x.com" Scenarios.five_failures
                   (mkRecord 5 (Some 905000)) 600000 _ _)).
  - reflexivity.
  - unfold maxAttempts. cbn. lia.
Defined.

End RateLimiterClaims.

(** ** Auth state machine *)

Section AuthClaims.
Import Auth Scenarios.
Local Open Scope auth_scope.

Implicit Types (s : Store) (st : AuthState) (sb : Supabase).

Lemma reducer_keeps_coherent st a :
  coherent st -> coherent (authReducer st a).
Proof.
  unfold coherent. intros H.
  destruct a as [[u|]| | | |]; cbn; try exact H; reflexivity.
Qed.

Lemma run_keeps_coherent st (actions : list AuthAction) :
  coherent st -> coherent (foldl authReducer st actions).
Proof.
  revert st. induction actions as [|a actions IH]; intros st H; cbn.
  - exact H.
  - apply IH, reducer_keeps_coherent, H.
Qed.

(** C5. In the initial state (of either provider variant) and in every
    state the reducer produces from it by any sequence of actions,
    [isAuthenticated] is exactly [user !== null]. *)
Theorem isAuthenticated_is_user_present (actions : list AuthAction) :
  let st := foldl authReducer initialState actions in
  let st' := foldl authReducer initialState_legacy actions in
  isAuthenticated st = bool_decide (user st <> None) /\
  isAuthenticated st' = bool_decide (user st' <> None).
Proof.
  split; apply run_keeps_coherent; reflexivity.
Qed.

(** The claim of C1 fails on the code: with a signed-in store and a
    remote sign-out that answers with an error, [logout] rejects and
    the user is still in the state. *)
Lemma logout_remote_failure_keeps_user :
  result_of (logout signout_fails alice_store)
    = Throw (mkError "Network request failed") /\
  user (state (store_of (logout signout_fails alice_store))) = Some alice /\
  isAuthenticated (state (store_of (logout signout_fails alice_store))) = true.
Proof. repeat split. Qed.

(** C1, amended. [logout] clears the local identity exactly when the
    remote sign-out succeeds: then [user], [session] and
    [currentSessionId] are null and LOGOUT is broadcast.  When the
    remote call answers with an error or rejects, [logout] rejects with
    that error, records its message in [error], and leaves [user],
    [session], [isAuthenticated] and [currentSessionId] as they were.
    In both cases [isLoading] ends false. *)
Theorem logout_clears_on_remote_success sb s :
  match signOut sb with
  | Resolved None =>
      result_of (logout sb s) = Ok tt /\
      store_of (logout sb s) = anonymous false None /\
      user (state (store_of (logout sb s))) = None /\
      In (Broadcast (mkMessage LOGOUT None)) (trace_of (logout sb s))
  | Resolved (Some e) | Rejected e =>
      result_of (logout sb s) = Throw e /\
      store_of (logout sb s) = logout_failed e s /\
      user (state (store_of (logout sb s))) = user (state s) /\
      forallb (fun x => negb (is_broadcast x)) (trace_of (logout sb s)) = true
  end.
Proof.
  unfold logout, result_of, store_of, trace_of, try_finally, try_catch, bind,
    await, emit, dispatch, throw, setCurrentSessionId, broadcast.
  destruct (signOut sb) as [[e|]|e]; cbn; repeat split; auto.
Qed.

(** C2. Whenever the assurance level the provider reports is not
    ["aal2"] (including no level at all and a rejected query),
    [completeMFALogin] rejects, leaves the whole store (hence [user]
    and [session]) untouched, and broadcasts nothing.  The verification
    call is no input of the function, so its outcome cannot change
    this. *)
Theorem completeMFALogin_requires_aal2 sb s :
  queriedLevel sb <> Some "aal2" ->
  exists e,
    result_of (completeMFALogin sb s) = Throw e /\
    store_of (completeMFALogin sb s) = s /\
    forallb (fun x => negb (is_broadcast x)) (trace_of (completeMFALogin sb s)) = true.
Proof.
  intros Hlevel.
  assert (Haal : forall r, getAuthenticatorAssuranceLevel sb = Resolved r ->
                           is_aal2 (currentLevel r) = false).
  { intros r Hr. unfold queriedLevel in Hlevel. rewrite Hr in Hlevel.
    unfold is_aal2. destruct (currentLevel r) as [l|]; [|reflexivity].
    apply String.eqb_neq. congruence. }
  unfold completeMFALogin, result_of, store_of, trace_of, try_catch, bind,
    await, emit, throw.
  destruct (getSession sb) as [r|e]; cbn; [|eauto].
  destruct (gs_session r) as [sess|]; cbn; [|eauto].
  destruct (session_user sess) as [u|]; cbn; [|eauto].
  destruct (getAuthenticatorAssuranceLevel sb) as [aal|e] eqn:E; cbn; [|eauto].
  rewrite (Haal aal eq_refl). cbn. destruct s. eauto.
Qed.

Lemma completeMFALogin_requires_aal2_witness :
  queriedLevel stored_aal1 <> Some "aal2" /\
  exists e,
    result_of (completeMFALogin stored_aal1 initialStore) = Throw e /\
    store_of (completeMFALogin stored_aal1 initialStore) = initialStore /\
    forallb (fun x => negb (is_broadcast x))
            (trace_of (completeMFALogin stored_aal1 initialStore)) = true.
Proof.
  assert (H : queriedLevel stored_aal1 <> Some "aal2") by (cbn; congruence).
  split; [exact H|].
  exact (completeMFALogin_requires_aal2 stored_aal1 initialStore H).
Defined.

End AuthClaims.

Section LoginClaims.
Import Auth Scenarios.
Local Open Scope auth_scope.

Implicit Types (s : Store) (sb : Supabase).

Lemma find_verified (totp : list Factor) f :
  List.find is_verified totp = Some f -> In f totp /\ status f = "verified".
Proof.
  intros H. apply find_some in H as [Hin Hv]. split; [exact Hin|].
  by apply String.eqb_eq.
Qed.

(** What [login] itself does on the second-factor path.  When the
    provider accepts the password for a user with a
    confirmed email and lists a TOTP factor with status ["verified"],
    [login] resolves with [{needsVerification: false, needsMFA: true,
    factorId}], [factorId] being the id of the first verified factor;
    it calls sign-in and the factor listing and nothing else, writes
    nothing to the store but [isLoading := false], so [user] and
    [isAuthenticated] are what they were: a state that was not
    authenticated is still not. *)
Theorem login_with_verified_factor_defers_identity
    sb email password s r u fs totp f :
  signInWithPassword sb email password = Resolved r ->
  signin_error r = None ->
  signin_user r = Some u ->
  truthy (su_email_confirmed_at u) = true ->
  listFactors sb = Resolved fs ->
  factors_data fs = Some (Some totp) ->
  List.find is_verified totp = Some f ->
  let out := login sb email password s in
  result_of out = Ok (mkLoginResult false (Some true) (Some (factor_id f))) /\
  In f totp /\ status f = "verified" /\
  store_of out = login_deferred s /\
  user (state (store_of out)) = user (state s) /\
  isAuthenticated (state (store_of out)) = isAuthenticated (state s) /\
  (isAuthenticated (state s) = false ->
     isAuthenticated (state (store_of out)) = false) /\
  trace_of out = [ShowLoading "Logging in...";
                  CallSignInWithPassword email password;
                  CallListFactors;
                  UpdateToast "info" "Please enter your 2FA code"].
Proof.
  intros Hsign Herr Huser Hconf Hlist Hdata Hfind out.
  destruct (find_verified _ _ Hfind) as [Hin Hst].
  assert (Hout : out = (Ok (mkLoginResult false (Some true) (Some (factor_id f))),
                        login_deferred s,
                        [ShowLoading "Logging in...";
                         CallSignInWithPassword email password;
                         CallListFactors;
                         UpdateToast "info" "Please enter your 2FA code"])).
  { subst out.
    unfold login, try_finally, try_catch, bind, await, emit, dispatch.
    rewrite Hsign. cbn. rewrite Herr, Huser, Hconf. cbn.
    rewrite Hlist. cbn. unfold verifiedFactor. rewrite Hdata, Hfind. cbn.
    reflexivity. }
  rewrite Hout. unfold result_of, store_of, trace_of. cbn.
  repeat split; auto.
Qed.

Lemma login_with_verified_factor_defers_identity_witness :
  result_of (login accepts_with_mfa "a@x.com" "secret" initialStore)
    = Ok (mkLoginResult false (Some true) (Some "totp-1")) /\
  isAuthenticated
    (state (store_of (login accepts_with_mfa "a@x.com" "secret" initialStore)))
    = false.
Proof.
  pose proof (login_with_verified_factor_defers_identity
                accepts_with_mfa "a@x.com" "secret" initialStore
                (mkSignIn (Some alice_su) (Some alice_session) None)
                alice_su
                (mkFactors (Some (Some [mkFactor "totp-1" "verified"])))
                [mkFactor "totp-1" "verified"]
                (mkFactor "totp-1" "verified")
                eq_refl eq_refl eq_refl eq_refl eq_refl eq_refl eq_refl)
    as (Hres & _ & _ & _ & _ & _ & Hauth & _).
  split; [exact Hres | exact (Hauth eq_refl)].
Defined.

(** The push subscription is a second writer: a [SIGNED_IN] event that
    carries the session of a user with an email commits that user,
    whether or not a second factor is still pending. *)
Lemma signed_in_event_commits_user se u e s :
  session_user se = Some u -> su_email u = Some e -> e <> "" ->
  isAuthenticated (state (store_of (onAuthStateChange SIGNED_IN (Some se) s)))
    = true.
Proof.
  intros Hu He Hne. unfold onAuthStateChange. rewrite Hu.
  unfold mapSupabaseUser. rewrite He.
  apply String.eqb_neq in Hne. rewrite Hne. reflexivity.
Qed.

(** C3 in the running provider.  For an accepted password, a confirmed
    email and a verified TOTP factor, [login] returns
    [{needsMFA: true, factorId}] and dispatches no user.  The listener
    the same provider registered with [onAuthStateChange] is a second
    writer: the [SIGNED_IN] event of that very sign-in, carrying the new
    session, makes it dispatch the session and the user with no look at
    the second factor.  Whether the event is handled while [login] is
    still awaiting or after it has returned, the state ends with the
    user set and [isAuthenticated] true, while the second factor is
    still pending. *)
Theorem pending_second_factor_committed_by_listener
    sb email password s r u se e fs totp f :
  signInWithPassword sb email password = Resolved r ->
  signin_error r = None ->
  signin_user r = Some u ->
  truthy (su_email_confirmed_at u) = true ->
  listFactors sb = Resolved fs ->
  factors_data fs = Some (Some totp) ->
  List.find is_verified totp = Some f ->
  signin_session r = Some se ->
  session_user se = Some u ->
  su_email u = Some e -> e <> "" ->
  let heard := store_of (onAuthStateChange SIGNED_IN (Some se) s) in
  let during := store_of (login sb email password heard) in
  let after := store_of (onAuthStateChange SIGNED_IN (Some se)
                           (store_of (login sb email password s))) in
  let committed_user :=
    Some (mkUser (su_id u) e (su_user_metadata u) (su_app_metadata u)) in
  result_of (login sb email password s)
    = Ok (mkLoginResult false (Some true) (Some (factor_id f))) /\
  result_of (login sb email password heard)
    = Ok (mkLoginResult false (Some true) (Some (factor_id f))) /\
  user (state during) = committed_user /\
  isAuthenticated (state during) = true /\
  user (state after) = committed_user /\
  isAuthenticated (state after) = true.
Proof.
  intros Hsign Herr Huser Hconf Hlist Hdata Hfind Hsess Hsu He Hne
    heard during after committed_user.
  destruct (login_with_verified_factor_defers_identity sb email password s
              r u fs totp f Hsign Herr Huser Hconf Hlist Hdata Hfind)
    as (Hres & _ & _ & Hstore & _).
  destruct (login_with_verified_factor_defers_identity sb email password heard
              r u fs totp f Hsign Herr Huser Hconf Hlist Hdata Hfind)
    as (Hres' & _ & _ & Hstore' & _).
  apply String.eqb_neq in Hne.
  split; [exact Hres|]. split; [exact Hres'|].
  subst during after heard committed_user. rewrite Hstore, Hstore'.
  unfold onAuthStateChange, store_of, bind, dispatch, login_deferred,
    mapSupabaseUser.
  rewrite Hsu. cbn. rewrite He. cbn. rewrite Hne. cbn.
  repeat split.
Qed.

Lemma pending_second_factor_committed_by_listener_witness :
  result_of (login accepts_with_mfa "a@x.com" "secret" initialStore)
    = Ok (mkLoginResult false (Some true) (Some "totp-1")) /\
  isAuthenticated
    (state (store_of (onAuthStateChange SIGNED_IN (Some alice_session)
       (store_of (login accepts_with_mfa "a@x.com" "secret" initialStore)))))
    = true.
Proof.
  assert (Hne : "a@x.com" <> "") by discriminate.
  destruct (pending_second_factor_committed_by_listener
              accepts_with_mfa "a@x.com" "secret" initialStore
              (mkSignIn (Some alice_su) (Some alice_session) None)
              alice_su alice_session "a@x.com"
              (mkFactors (Some (Some [mkFactor "totp-1" "verified"])))
              [mkFactor "totp-1" "verified"]
              (mkFactor "totp-1" "verified")
              eq_refl eq_refl eq_refl eq_refl eq_refl eq_refl eq_refl
              eq_refl eq_refl eq_refl Hne)
    as (Hres & _ & _ & _ & _ & Hauth).
  exact (conj Hres Hauth).
Defined.

(** C8. A LOGOUT message received from another tab runs the provider's
    callback and the relay's own handling: [user], [session] and
    [currentSessionId] end null (and [isAuthenticated] false), the one
    effect is the redirect to [/login], nothing is broadcast, and the
    handler does not throw.  On a store that is already anonymous the
    store is left exactly as it was, and handling the message twice is
    the same as handling it once. *)
Theorem logout_message_received sb pathname p s :
  let handle := SessionSync.handleMessage (Some (onSyncMessage sb)) pathname
                  (mkMessage LOGOUT p) in
  result_of (handle s) = Ok tt /\
  user (state (store_of (handle s))) = None /\
  session (state (store_of (handle s))) = None /\
  currentSessionId (store_of (handle s)) = None /\
  isAuthenticated (state (store_of (handle s))) = false /\
  trace_of (handle s) = [Navigate "/login" true] /\
  forallb (fun x => negb (is_broadcast x)) (trace_of (handle s)) = true /\
  (forall loading err,
      result_of (handle (anonymous loading err)) = Ok tt /\
      store_of (handle (anonymous loading err)) = anonymous loading err) /\
  store_of (handle (store_of (handle s))) = store_of (handle s).
Proof.
  cbn. repeat split.
Qed.

End LoginClaims.

(** ** Login form and rate limiter *)

Section SubmitClaims.
Import Auth Scenarios LoginPage.
Local Open Scope auth_scope.

Lemma opens_with_await {A} e (p : Settled A) : opens_with [e] (await e p).
Proof. intros s. unfold await, trace_of. destruct p; by exists []. Qed.

Lemma opens_with_bind {A B} pre (m : M A) (k : A -> M B) :
  opens_with pre m -> opens_with pre (bind m k).
Proof.
  intros H s. destruct (H s) as [rest Hrest].
  unfold bind, trace_of in *.
  destruct (m s) as [[[a|e] s1] t1]; cbn in *; subst t1.
  - destruct (k a s1) as [[r s2] t2]; cbn. rewrite <- app_assoc. eauto.
  - eauto.
Qed.

Lemma opens_with_emit {A} e pre (m : M A) :
  opens_with pre m -> opens_with (e :: pre) (bind (emit e) (fun _ => m)).
Proof.
  intros H s. destruct (H s) as [rest Hrest].
  unfold bind, emit, trace_of in *. cbn.
  destruct (m s) as [[r s2] t2]; cbn in *. subst t2. eauto.
Qed.

Lemma opens_with_try_catch {A} pre (body : M A) handler :
  opens_with pre body -> opens_with pre (try_catch body handler).
Proof.
  intros H s. destruct (H s) as [rest Hrest].
  unfold try_catch, trace_of in *.
  destruct (body s) as [[[a|e] s1] t1]; cbn in *; subst t1; [eauto|].
  destruct (handler e s1) as [[r s2] t2]; cbn. rewrite <- app_assoc. eauto.
Qed.

Lemma opens_with_try_finally {A} pre (body : M A) final :
  opens_with pre body -> opens_with pre (try_finally body final).
Proof.
  intros H s. destruct (H s) as [rest Hrest].
  unfold try_finally, trace_of in *.
  destruct (body s) as [[r s1] t1]; cbn in *; subst t1.
  destruct (final s1) as [[[u|e] s2] t2]; cbn; rewrite <- app_assoc; eauto.
Qed.

(** Every run of [login] opens with the loading toast and the remote
    sign-in call. *)
Lemma login_calls_provider_first sb email password :
  opens_with [ShowLoading "Logging in...";
              CallSignInWithPassword email password]
             (login sb email password).
Proof.
  unfold login.
  apply opens_with_emit, opens_with_try_finally, opens_with_try_catch,
    opens_with_bind, opens_with_await.
Qed.

Lemma onSubmit_trace sb data w :
  exists extra,
    (onSubmit sb data w).2
      = trace_of (login sb (form_email data) (form_password data) (store w))
          ++ extra.
Proof.
  unfold onSubmit, trace_of.
  destruct (login sb (form_email data) (form_password data) (store w))
    as [[[result|err] st] trace]; cbn.
  - destruct (needsVerification result); [eauto|].
    destruct (default false (needsMFA result) && truthy (factorId result));
      exists []; by rewrite app_nil_r.
  - eauto.
Qed.

Lemma onSubmit_keeps_rateLimiter sb data w :
  rateLimiter (onSubmit sb data w).1 = rateLimiter w.
Proof.
  unfold onSubmit.
  destruct (login sb (form_email data) (form_password data) (store w))
    as [[[result|err] st] trace]; cbn; [|reflexivity].
  destruct (needsVerification result); [reflexivity|].
  by destruct (default false (needsMFA result) && truthy (factorId result)).
Qed.

(** The claim of C7 fails on the code: after five recorded failures
    for [a@x.com] the identifier is locked, and the sixth submission
    still reaches the provider's [signInWithPassword]. *)
Lemma sixth_submission_reaches_provider :
  (RateLimiter.isLocked 6000 "a@x.com" (rateLimiter locked_world)).1 = true /\
  In (CallSignInWithPassword "a@x.com" "wrong6")
     (onSubmit stored_aal1 sixth_attempt locked_world).2.
Proof. split; [reflexivity|]. cbn. auto. Qed.

(** C7, amended. With five failures recorded for the submitted email,
    the last at [t5], every instant [now] from [t5] to strictly before
    [t5 + 15 minutes] finds the email locked and [getRemainingTime]
    between 1 and 900 seconds.  The submit handler does not consult the
    limiter: the submission still opens with the remote sign-in call
    for that email and password, and the limiter's map is left as it
    was. *)
Theorem locked_submission_not_gated
    sb data st pg (m : gmap string RateLimiter.AttemptRecord)
    t1 t2 t3 t4 t5 now :
  m !! form_email data = None ->
  t5 <= now < t5 + 15 * 60 * 1000 ->
  let locked := RateLimiter.failures (form_email data) [t1; t2; t3; t4; t5] m in
  let w := mkWorld locked st pg in
  (RateLimiter.isLocked now (form_email data) locked).1 = true /\
  0 < RateLimiter.getRemainingTime now (form_email data) locked <= 900 /\
  rateLimiter (onSubmit sb data w).1 = locked /\
  exists rest,
    (onSubmit sb data w).2
      = ShowLoading "Logging in..."
          :: CallSignInWithPassword (form_email data) (form_password data)
          :: rest.
Proof.
  intros Hm Hnow locked w.
  assert (Hlocked : locked !! form_email data
                    = Some (RateLimiter.mkRecord 5 (Some (t5 + 900000)))).
  { subst locked.
    change [t1; t2; t3; t4; t5] with ([t1; t2; t3; t4] ++ [t5]).
    rewrite (failures_lookup _ _ _ _ Hm). reflexivity. }
  repeat split.
  - erewrite isLocked_before; [reflexivity | exact Hlocked | lia].
  - unfold RateLimiter.getRemainingTime. rewrite Hlocked. cbn.
    pose proof (ceil_div_bounds (t5 + 900000 - now)). lia.
  - unfold RateLimiter.getRemainingTime. rewrite Hlocked. cbn.
    pose proof (ceil_div_bounds (t5 + 900000 - now)). lia.
  - apply onSubmit_keeps_rateLimiter.
  - destruct (onSubmit_trace sb data w) as [extra ->].
    destruct (login_calls_provider_first sb (form_email data)
                (form_password data) (store w)) as [rest ->].
    cbn. eauto.
Qed.

Lemma locked_submission_not_gated_witness :
  (RateLimiter.isLocked 6000 "a@x.com" five_failures).1 = true /\
  0 < RateLimiter.getRemainingTime 6000 "a@x.com" five_failures <= 900 /\
  rateLimiter (onSubmit stored_aal1 sixth_attempt locked_world).1 = five_failures.
Proof.
  assert (H1 : (∅ : gmap string RateLimiter.AttemptRecord)
                 !! form_email sixth_attempt = None) by reflexivity.
  assert (H2 : 5000 <= 6000 < 5000 + 15 * 60 * 1000) by lia.
  destruct (locked_submission_not_gated stored_aal1 sixth_attempt
              initialStore (mkPage None false None) ∅
              1000 2000 3000 4000 5000 6000 H1 H2) as (Ha & Hb & Hc & _).
  exact (conj Ha (conj Hb Hc)).
Defined.

End SubmitClaims.

(** ** Cross-tab relay *)

Section RelayClaims.
Import Auth Scenarios SessionSync.
Local Open Scope auth_scope.

(** The storage listener parses and stops: it returns normally, leaves
    the store alone, and its only possible effect is the parse error
    it logs. *)
Lemma handleStorageChange_inert pf ev s :
  result_of (handleStorageChange pf ev s) = Ok tt /\
  store_of (handleStorageChange pf ev s) = s /\
  forallb is_console_error (trace_of (handleStorageChange pf ev s)) = true.
Proof.
  unfold handleStorageChange.
  destruct (bool_decide (key ev = Some storage_key) && truthy (newValue ev));
    [|by cbn].
  destruct (JSON_parse pf (default "" (newValue ev))); by cbn.
Qed.

Lemma receive_storage_inert pf onMessage pathname evs s :
  let out := receiveAll pf onMessage pathname (map StorageChanged evs) s in
  result_of out = Ok tt /\ store_of out = s /\
  forallb is_console_error (trace_of out) = true.
Proof.
  induction evs as [|ev evs IH]; [by cbn|].
  cbn [map receiveAll receive].
  destruct (handleStorageChange_inert pf ev s) as (Hr & Hs & Ht).
  destruct IH as (Hr' & Hs' & Ht').
  unfold bind, result_of, store_of, trace_of in *.
  destruct (handleStorageChange pf ev s) as [[r s1] t1]; cbn in *; subst.
  destruct (receiveAll pf onMessage pathname (map StorageChanged evs) s)
    as [[r2 s2] t2]; cbn in *; subst.
  rewrite forallb_app, Ht, Ht'. by cbn.
Qed.

Lemma fallback_deliveries stringify now m parse (ls : gmap string string) :
  exists evs,
    (deliveries (broadcast (mkPlatform false true parse) stringify now m) ls).1
      = map StorageChanged evs.
Proof.
  unfold broadcast. cbn.
  destruct (bool_decide (ls !! storage_key = Some (stringify m now)));
    rewrite lookup_insert_eq.
  - by exists [mkStorageEvent (Some storage_key) None (Some (stringify m now))].
  - by exists [mkStorageEvent (Some storage_key) (Some (stringify m now))
                              (ls !! storage_key);
               mkStorageEvent (Some storage_key) None (Some (stringify m now))].
Qed.

(** C9, as the code has it.  Without [BroadcastChannel], [broadcast]
    writes the tagged message under [auth_sync] and removes it at once,
    so the key is absent afterwards.  In a listening tab the
    notifications this raises go to the storage listener, which does
    not hand them on: whatever callback the tab registered and whatever
    its parser returns, the tab's store is unchanged and nothing is
    navigated, reloaded or broadcast (a parse failure is logged). *)
Theorem fallback_message_not_processed
    stringify now m parse (ls : gmap string string)
    listener onMessage pathname s :
  let ops := broadcast (mkPlatform false true parse) stringify now m in
  let out := receiveAll listener onMessage pathname (deliveries ops ls).1 s in
  ops = [SetItem "auth_sync" (stringify m now); RemoveItem "auth_sync"] /\
  (deliveries ops ls).2 !! "auth_sync" = None /\
  result_of out = Ok tt /\
  store_of out = s /\
  forallb is_console_error (trace_of out) = true.
Proof.
  intros ops out. subst out ops. split; [reflexivity|]. split.
  - unfold broadcast. cbn. apply lookup_delete_eq.
  - destruct (fallback_deliveries stringify now m parse ls) as [evs ->].
    apply receive_storage_inert.
Qed.

(** The same at a concrete input: a signed-in tab listening while an
    old browser broadcasts LOGOUT stays signed in and is not
    redirected, although the same message over the channel signs it
    out. *)
Lemma fallback_logout_is_lost :
  let ops := broadcast old_browser (fun _ _ => "LOGOUT") 0 (mkMessage LOGOUT None) in
  let out := receiveAll old_browser (Some (onSyncMessage stored_aal1)) "/dashboard"
               (deliveries ops ∅).1 alice_store in
  store_of out = alice_store /\ trace_of out = [] /\
  user (state (store_of
    (receive (mkPlatform true true (JSON_parse old_browser))
             (Some (onSyncMessage stored_aal1)) "/dashboard"
             (ChannelMessage (mkMessage LOGOUT None)) alice_store))) = None.
Proof. repeat split. Qed.

End RelayClaims.

(** ** Route guard *)

Section GuardClaims.
Import Auth Scenarios ProtectedRoute.

(** While the provider is loading or the guard's [checking] flag is
    up, the guard renders the placeholder. *)
Lemma guard_placeholder user isLoading location l :
  isLoading || checking l = true ->
  render user isLoading location l = Placeholder.
Proof. intros H. unfold render. by rewrite H. Qed.

(** Past the placeholder, no user means a redirect to [/login] that
    carries the requested location. *)
Lemma guard_no_user location l :
  checking l = false ->
  render None false location l = NavigateTo "/login" location.
Proof. intros H. unfold render. by rewrite H. Qed.

(** A guard that mounts with the user already present shows the
    placeholder and, once its check settles on a primary-only session
    of an account with a verified factor, redirects to [/mfa-verify]. *)
Lemma guard_mounted_with_user sb u r fs aal location :
  getSession sb = Resolved r -> gs_error r = None ->
  is_Some (gs_session r) ->
  listFactors sb = Resolved fs -> hasMFA fs = true ->
  getAuthenticatorAssuranceLevel sb = Resolved aal ->
  is_aal2 (currentLevel aal) = false ->
  render (Some u) false location mounted = Placeholder /\
  render (Some u) false location (checkMFAStatus sb (Some u) mounted)
    = NavigateTo "/mfa-verify" location.
Proof.
  intros Hs He [sess Hsess] Hf Hm Ha Hl. split; [reflexivity|].
  unfold checkMFAStatus. rewrite Hs, He, Hsess, Hf, Hm, Ha, Hl. reflexivity.
Qed.

(** The render function on the cells of a guard that mounted without a
    user: [checking] is down and [mfaVerified] unset, and for such cells
    a present user gets the children. *)
Lemma guard_mounted_without_user sb u location :
  checkMFAStatus sb None mounted = mkLocal None false /\
  render (Some u) false location (checkMFAStatus sb None mounted) = Children.
Proof. split; reflexivity. Qed.

(** C4 on a fresh page load at [/profile].  The provider starts from
    [initialState] (no user, not loading) and restores the stored
    session only in an effect, so the guard mounts without a user: it
    shows the placeholder, its effect lowers [checking] at once, and its
    next render redirects to [/login], the anonymous entry point,
    carrying [/profile].  That redirect unmounts it.  Once the session is
    restored (primary-only, verified factor registered) the public guard
    at [/login] redirects to [/dashboard]; the guard that mounts there
    starts anew with the user present, shows the placeholder and, when
    its check settles, redirects to [/mfa-verify].  The MFA entry is
    reached through the anonymous entry, and the location carried to it
    is [/dashboard], not the one requested. *)
Theorem fresh_load_passes_through_login :
  let first := checkMFAStatus stored_aal1 (user initialState) mounted in
  let restored := state (store_of (loadInitialSession stored_aal1 initialStore)) in
  let second := checkMFAStatus stored_aal1 (user restored) mounted in
  view initialState "/profile" mounted = Placeholder /\
  first = mkLocal None false /\
  view initialState "/profile" first = NavigateTo "/login" "/profile" /\
  user restored = Some alice /\
  isAuthenticated restored = true /\
  isLoading restored = false /\
  Screens.PublicRoute (isAuthenticated restored) (isLoading restored)
    = Screens.ToDashboard /\
  view restored "/dashboard" mounted = Placeholder /\
  second = mkLocal (Some false) false /\
  view restored "/dashboard" second = NavigateTo "/mfa-verify" "/dashboard".
Proof. repeat split. Qed.

End GuardClaims.

(** ** Further properties of the rate limiter *)

Section RateLimiterMore.
Import RateLimiter LimiterRuns.

Implicit Types (id : string) (m : gmap string AttemptRecord).

(** A successful attempt wipes the identifier: whatever was recorded,
    the count reads zero, all five attempts are available again, no time
    remains and every later check finds it unlocked and leaves the map
    alone. *)
Theorem success_clears_identifier id m t now :
  let m' := recordAttempt t id true m in
  getAttemptCount id m' = 0 /\
  getRemainingAttempts id m' = 5 /\
  getRemainingTime now id m' = 0 /\
  isLocked now id m' = (false, m').
Proof.
  cbn. unfold getAttemptCount, getRemainingAttempts, getAttemptCount,
    getRemainingTime, isLocked, recordAttempt.
  rewrite lookup_delete_eq. repeat split.
Qed.

(** After [k] failed attempts from no record the count reads [k] and
    the remaining attempts read [max 0 (5 - k)]: they reach zero at the
    fifth failure and stay there. *)
Theorem attempts_are_counted id m (ts : list Z) :
  m !! id = None ->
  getAttemptCount id (failures id ts m) = Z.of_nat (length ts) /\
  getRemainingAttempts id (failures id ts m)
    = Z.max 0 (5 - Z.of_nat (length ts)).
Proof.
  intros Hm.
  assert (H : getAttemptCount id (failures id ts m) = Z.of_nat (length ts)).
  { unfold getAttemptCount.
    destruct ts as [|t ts _] using rev_ind.
    - cbn. by rewrite Hm.
    - rewrite (failures_lookup _ _ _ _ Hm), length_app. cbn. lia. }
  split; [exact H|]. unfold getRemainingAttempts. by rewrite H.
Qed.

Lemma attempts_are_counted_witness :
  getAttemptCount "a@x.com" (failures "a@x.com" [1; 2; 3] ∅) = 3 /\
  getRemainingAttempts "a@x.com" (failures "a@x.com" [1; 2; 3] ∅) = 2.
Proof.
  exact (attempts_are_counted "a@x.com" ∅ [1; 2; 3] (lookup_empty _)).
Defined.

(** Identifiers do not interfere: recording an attempt for [id] or
    checking [id] leaves the record of every other identifier, and so
    each of its four reads, as it was. *)
Theorem identifiers_are_independent id other m t ok now :
  id <> other ->
  let after_attempt := recordAttempt t id ok m in
  let after_check := (isLocked t id m).2 in
  after_attempt !! other = m !! other /\
  after_check !! other = m !! other /\
  (isLocked now other after_attempt).1 = (isLocked now other m).1 /\
  getRemainingTime now other after_attempt = getRemainingTime now other m /\
  getAttemptCount other after_attempt = getAttemptCount other m /\
  (isLocked now other after_check).1 = (isLocked now other m).1.
Proof.
  intros Hne after_attempt after_check.
  assert (H1 : after_attempt !! other = m !! other).
  { subst after_attempt. unfold recordAttempt.
    destruct ok; cbv beta iota zeta;
      [by rewrite lookup_delete_ne | by rewrite lookup_insert_ne]. }
  assert (H2 : after_check !! other = m !! other).
  { subst after_check. unfold isLocked.
    destruct (m !! id) as [r|]; [|done].
    destruct (lockedUntil r) as [u|]; [|done].
    destruct (t >? u); cbn [snd]; [by rewrite lookup_delete_ne | done]. }
  unfold isLocked, getRemainingTime, getAttemptCount.
  rewrite H1, H2. repeat split.
  - destruct (m !! other) as [r|]; [|done].
    destruct (lockedUntil r) as [u|]; [|done]. by destruct (now >? u).
  - destruct (m !! other) as [r|]; [|done].
    destruct (lockedUntil r) as [u|]; [|done]. by destruct (now >? u).
Qed.

Lemma identifiers_are_independent_witness :
  (recordAttempt 6000 "b@x.com" false Scenarios.five_failures) !! "a@x.com"
    = Scenarios.five_failures !! "a@x.com".
Proof.
  assert (H : "b@x.com" <> "a@x.com") by discriminate.
  exact (proj1 (identifiers_are_independent "b@x.com" "a@x.com"
                  Scenarios.five_failures 6000 false 0 H)).
Defined.

Lemma recordAttempt_well_formed m t id ok :
  map_Forall (fun _ r => well_formed r) m ->
  map_Forall (fun _ r => well_formed r) (recordAttempt t id ok m).
Proof.
  intros Hm. unfold recordAttempt. destruct ok.
  - by apply map_Forall_delete.
  - apply map_Forall_insert_2; [|exact Hm].
    unfold well_formed, maxAttempts.
    destruct (m !! id) as [r|] eqn:Hr; cbn.
    + destruct (Hm _ _ Hr) as [Hc Hl]. unfold maxAttempts in Hl.
      destruct (Z.geb_spec (count r + 1) 5) as [Hge|Hlt]; cbn.
      * split; [lia|]. split; [intros _; lia | eauto].
      * split; [lia|]. rewrite Hl. split; intros; lia.
    + change (0 + 1 >=? 5) with false. cbn.
      split; [lia|]. split; [intros [? [=]] | intros; lia].
Qed.

Lemma isLocked_well_formed m t id :
  map_Forall (fun _ r => well_formed r) m ->
  map_Forall (fun _ r => well_formed r) (isLocked t id m).2.
Proof.
  intros Hm. unfold isLocked.
  destruct (m !! id) as [r|]; [|done].
  destruct (lockedUntil r) as [u|]; [|done].
  destruct (t >? u); [by apply map_Forall_delete | done].
Qed.

Lemma run_ops_well_formed (ops : list Op) m :
  map_Forall (fun _ r => well_formed r) m ->
  map_Forall (fun _ r => well_formed r) (run_ops ops m).
Proof.
  unfold run_ops. revert m.
  induction ops as [|op ops IH]; intros m Hm; [exact Hm|].
  cbn. apply IH.
  destruct op; [by apply recordAttempt_well_formed | by apply isLocked_well_formed].
Qed.

(** Whatever attempts and checks are made, in whatever order and for
    whatever identifiers, every record the limiter holds counts at least
    one failure and carries an expiry exactly when its count is five or
    more. *)
Theorem limiter_records_well_formed (ops : list Op) :
  map_Forall (fun _ r => well_formed r) (run_ops ops ∅).
Proof. apply run_ops_well_formed, map_Forall_empty. Qed.

(** In any state the limiter can reach, an identifier reported locked
    has no attempts left. *)
Theorem locked_has_no_attempts_left (ops : list Op) now id :
  (isLocked now id (run_ops ops ∅)).1 = true ->
  getRemainingAttempts id (run_ops ops ∅) = 0 /\
  5 <= getAttemptCount id (run_ops ops ∅).
Proof.
  intros Hlocked.
  pose proof (run_ops_well_formed ops ∅ (map_Forall_empty _)) as Hwf.
  unfold isLocked in Hlocked.
  unfold getRemainingAttempts, getAttemptCount.
  destruct (run_ops ops ∅ !! id) as [r|] eqn:Hr; [|discriminate].
  destruct (Hwf _ _ Hr) as [_ Hl]. unfold maxAttempts in *.
  destruct (lockedUntil r) as [u|]; [|discriminate].
  assert (5 <= count r) by (apply Hl; eauto). lia.
Qed.

Lemma locked_has_no_attempts_left_witness :
  getRemainingAttempts "a@x.com"
    (run_ops [Attempt 1 "a@x.com" false; Attempt 2 "a@x.com" false;
              Attempt 3 "a@x.com" false; Check 4 "a@x.com";
              Attempt 5 "a@x.com" false; Attempt 6 "a@x.com" false] ∅) = 0.
Proof.
  refine (proj1 (locked_has_no_attempts_left _ 7 "a@x.com" _)).
  reflexivity.
Defined.

(** A positive remaining time means locked: whenever [getRemainingTime]
    is above zero, [isLocked] at the same instant is true and keeps the
    record.  The converse fails at the expiry instant, where [isLocked]
    is still true and the remaining time reads zero, and only there: an
    instant at which [isLocked] is true and the remaining time is zero
    is the stored expiry. *)
Theorem remaining_time_implies_locked id m now :
  (0 < getRemainingTime now id m -> isLocked now id m = (true, m)) /\
  (forall c until, m !! id = Some (mkRecord c (Some until)) ->
     isLocked until id m = (true, m) /\ getRemainingTime until id m = 0) /\
  ((isLocked now id m).1 = true -> getRemainingTime now id m = 0 ->
     exists c, m !! id = Some (mkRecord c (Some now))).
Proof.
  split; [|split].
  - intros Hpos. unfold getRemainingTime in Hpos. unfold isLocked.
    destruct (m !! id) as [r|]; [|lia].
    destruct (lockedUntil r) as [u|]; [|lia].
    destruct (Z.gtb_spec now u) as [Hgt|]; [|reflexivity].
    exfalso. unfold ceil_div in Hpos.
    assert (0 <= - (u - now) / 1000) by (apply Z.div_pos; lia). lia.
  - intros c until Hr. split.
    + eapply isLocked_before; [exact Hr | lia].
    + unfold getRemainingTime. rewrite Hr. cbn.
      replace (until - until) with 0 by lia. reflexivity.
  - unfold isLocked, getRemainingTime.
    destruct (m !! id) as [[c [u|]]|]; cbn; try discriminate.
    destruct (Z.gtb_spec now u) as [Hgt|Hle]; cbn; [discriminate|].
    intros _ Hzero. exists c.
    assert (u <= now); [|repeat f_equal; lia].
    destruct (Z_le_gt_dec u now) as [|Hlt]; [assumption|exfalso].
    unfold ceil_div in Hzero.
    assert (- (u - now) / 1000 < 0) by (apply Z.div_lt_upper_bound; lia).
    lia.
Qed.

Lemma remaining_time_implies_locked_witness :
  isLocked 6000 "a@x.com" Scenarios.five_failures
    = (true, Scenarios.five_failures).
Proof.
  refine (proj1 (remaining_time_implies_locked "a@x.com"
                   Scenarios.five_failures 6000) _).
  vm_compute. reflexivity.
Defined.

(** Expiry is applied by [isLocked] alone, and it forgets the count:
    the first check after the expiry deletes the record, so the count
    reads zero, five attempts are available and the next failure is
    recorded as the first, unlocked.  Checking again changes nothing. *)
Theorem expired_check_restores_allowance id m c until now t :
  m !! id = Some (mkRecord c (Some until)) ->
  until < now ->
  let m' := (isLocked now id m).2 in
  (isLocked now id m).1 = false /\
  getAttemptCount id m' = 0 /\
  getRemainingAttempts id m' = 5 /\
  recordAttempt t id false m' !! id = Some (mkRecord 1 None) /\
  isLocked now id m' = (false, m').
Proof.
  intros Hr Hlt m'. subst m'.
  rewrite (isLocked_after _ _ _ _ _ Hr Hlt). cbn [fst snd].
  unfold getRemainingAttempts, getAttemptCount, recordAttempt.
  rewrite lookup_delete_eq. cbn. rewrite lookup_insert_eq.
  repeat split. apply isLocked_absent, lookup_delete_eq.
Qed.

Lemma expired_check_restores_allowance_witness :
  getRemainingAttempts "a@x.com"
    (isLocked 905001 "a@x.com" Scenarios.five_failures).2 = 5.
Proof.
  assert (H : 905000 < 905001) by lia.
  destruct (expired_check_restores_allowance "a@x.com" Scenarios.five_failures
              5 905000 905001 0 eq_refl H) as (_ & _ & H3 & _).
  exact H3.
Defined.

End RateLimiterMore.

(** ** The provider keeps its state coherent *)

Section ProviderInvariant.
Import Auth Scenarios Account Provider.
Local Open Scope auth_scope.

Context (P : AuthState -> Prop).
Context (P_reducer : forall st a, P st -> P (authReducer st a)).

Lemma keeps_ret {A} (a : A) : keeps P (ret a).
Proof. by intros s H. Qed.

Lemma keeps_throw {A} e : keeps P (@throw A e).
Proof. by intros s H. Qed.

Lemma keeps_emit e : keeps P (emit e).
Proof. by intros s H. Qed.

Lemma keeps_await {A} e (p : Settled A) : keeps P (await e p).
Proof. intros s H. unfold await. by destruct p. Qed.

Lemma keeps_dispatch a : keeps P (dispatch a).
Proof. intros s H. by apply P_reducer. Qed.

Lemma keeps_setCurrentSessionId v : keeps P (setCurrentSessionId v).
Proof. by intros s H. Qed.

Lemma keeps_bind {A B} (m : M A) (k : A -> M B) :
  keeps P m -> (forall a, keeps P (k a)) -> keeps P (bind m k).
Proof.
  intros Hm Hk s H. specialize (Hm s H).
  unfold bind, store_of in *.
  destruct (m s) as [[[a|e] s1] t1]; cbn in *; [|exact Hm].
  specialize (Hk a s1 Hm). unfold store_of in Hk.
  by destruct (k a s1) as [[r s2] t2].
Qed.

Lemma keeps_try_catch {A} (body : M A) handler :
  keeps P body -> (forall e, keeps P (handler e)) ->
  keeps P (try_catch body handler).
Proof.
  intros Hm Hk s H. specialize (Hm s H).
  unfold try_catch, store_of in *.
  destruct (body s) as [[[a|e] s1] t1]; cbn in *; [exact Hm|].
  specialize (Hk e s1 Hm). unfold store_of in Hk.
  by destruct (handler e s1) as [[r s2] t2].
Qed.

Lemma keeps_try_finally {A} (body : M A) final :
  keeps P body -> keeps P final -> keeps P (try_finally body final).
Proof.
  intros Hm Hk s H. specialize (Hm s H).
  unfold try_finally, store_of in *.
  destruct (body s) as [[r s1] t1]; cbn in *.
  specialize (Hk s1 Hm). unfold store_of in Hk.
  by destruct (final s1) as [[[u|e] s2] t2].
Qed.

Lemma xkeeps_lift {A} (m : M A) : keeps P m -> xkeeps P (lift m).
Proof.
  intros Hm s H. specialize (Hm s H). unfold lift, store_x, store_of in *.
  by destruct (m s) as [[r s1] t1].
Qed.

Lemma xkeeps_ret {A} (a : A) : xkeeps P (xret a).
Proof. by intros s H. Qed.

Lemma xkeeps_throw {A} e : xkeeps P (@xthrow A e).
Proof. by intros s H. Qed.

Lemma xkeeps_call c : xkeeps P (xcall c).
Proof. by intros s H. Qed.

Lemma xkeeps_read : xkeeps P xread.
Proof. by intros s H. Qed.

Lemma xkeeps_bind {A B} (m : MX A) (k : A -> MX B) :
  xkeeps P m -> (forall a, xkeeps P (k a)) -> xkeeps P (xbind m k).
Proof.
  intros Hm Hk s H. specialize (Hm s H).
  unfold xbind, store_x in *.
  destruct (m s) as [[[a|e] s1] t1]; cbn in *; [|exact Hm].
  specialize (Hk a s1 Hm). unfold store_x in Hk.
  by destruct (k a s1) as [[r s2] t2].
Qed.

Lemma xkeeps_try_catch {A} (body : MX A) handler :
  xkeeps P body -> (forall e, xkeeps P (handler e)) ->
  xkeeps P (xtry_catch body handler).
Proof.
  intros Hm Hk s H. specialize (Hm s H).
  unfold xtry_catch, store_x in *.
  destruct (body s) as [[[a|e] s1] t1]; cbn in *; [exact Hm|].
  specialize (Hk e s1 Hm). unfold store_x in Hk.
  by destruct (handler e s1) as [[r s2] t2].
Qed.

Lemma xkeeps_try_finally {A} (body : MX A) final :
  xkeeps P body -> xkeeps P final -> xkeeps P (xtry_finally body final).
Proof.
  intros Hm Hk s H. specialize (Hm s H).
  unfold xtry_finally, store_x in *.
  destruct (body s) as [[r s1] t1]; cbn in *.
  specialize (Hk s1 Hm). unfold store_x in Hk.
  by destruct (final s1) as [[[u|e] s2] t2].
Qed.

Ltac keeps_step :=
  first
    [ apply keeps_ret | apply keeps_throw | apply keeps_emit
    | apply keeps_await | apply keeps_dispatch
    | apply keeps_setCurrentSessionId
    | apply keeps_bind; [|intros ?]
    | apply keeps_try_catch; [|intros ?]
    | apply keeps_try_finally
    | apply xkeeps_ret | apply xkeeps_throw | apply xkeeps_call
    | apply xkeeps_read
    | apply xkeeps_lift
    | apply xkeeps_bind; [|intros ?]
    | apply xkeeps_try_catch; [|intros ?]
    | apply xkeeps_try_finally
    | match goal with
      | |- keeps _ (match ?x with _ => _ end) => destruct x
      | |- xkeeps _ (match ?x with _ => _ end) => destruct x
      end ].

Ltac keeps_all :=
  unfold trackSession, logActivity, broadcast, refreshSession; repeat keeps_step.

Lemma keeps_login sb email password : keeps P (login sb email password).
Proof. unfold login. keeps_all. Qed.

Lemma keeps_logout sb : keeps P (logout sb).
Proof. unfold logout. keeps_all. Qed.

Lemma keeps_completeMFALogin sb : keeps P (completeMFALogin sb).
Proof. unfold completeMFALogin. keeps_all. Qed.

Lemma keeps_loadInitialSession sb : keeps P (loadInitialSession sb).
Proof. unfold loadInitialSession. keeps_all. Qed.

Lemma keeps_onSyncMessage sb m : keeps P (onSyncMessage sb m).
Proof. unfold onSyncMessage. keeps_all. Qed.

Lemma keeps_onAuthStateChange ev sess : keeps P (onAuthStateChange ev sess).
Proof. unfold onAuthStateChange. keeps_all. Qed.

Lemma keeps_getMFAStatus sb e : keeps P (getMFAStatus sb e).
Proof. unfold getMFAStatus. keeps_all. Qed.

Lemma xkeeps_register sb signUp email password :
  xkeeps P (register sb signUp email password).
Proof. unfold register. keeps_all. Qed.

Lemma xkeeps_deleteUserAccount sb : xkeeps P (deleteUserAccount sb).
Proof. unfold deleteUserAccount. keeps_all. Qed.

Lemma xkeeps_signOutAllOtherSessions : xkeeps P signOutAllOtherSessions.
Proof. unfold signOutAllOtherSessions. keeps_all. Qed.

Lemma perform_keeps s step : P (state s) -> P (state (perform s step)).
Proof.
  destruct step as [sb op]. intros H. destruct op; cbn.
  - by apply keeps_login.
  - by apply keeps_logout.
  - by apply keeps_completeMFALogin.
  - by apply keeps_loadInitialSession.
  - by apply keeps_onSyncMessage.
  - by apply keeps_onAuthStateChange.
  - by apply keeps_getMFAStatus.
  - by apply xkeeps_register.
  - by apply xkeeps_deleteUserAccount.
  - by apply xkeeps_signOutAllOtherSessions.
Qed.

Lemma run_keeps script s : P (state s) -> P (state (run script s)).
Proof.
  revert s. induction script as [|step script IH]; intros s H; [exact H|].
  cbn. apply IH, perform_keeps, H.
Qed.

End ProviderInvariant.

Section ProviderClaims.
Import Auth Scenarios Account Provider.

(** From the initial store, whatever operations the provider performs
    (login, logout, second-factor completion, session restore, cross-tab
    and push events, MFA status, registration, account deletion, sign-out
    of other sessions), in whatever order and whatever the remote side
    answers at each step, [isAuthenticated] equals [user !== null]. *)
Theorem provider_stays_coherent (script : list (Supabase * Operation)) :
  isAuthenticated (state (run script initialStore))
    = bool_decide (user (state (run script initialStore)) <> None).
Proof.
  apply (run_keeps coherent reducer_keeps_coherent). reflexivity.
Qed.

End ProviderClaims.

(** ** The paths of [login] and [completeMFALogin] *)

Section LoginPaths.
Import Auth Scenarios MoreScenarios.
Local Open Scope auth_scope.

Implicit Types (s : Store) (sb : Supabase).

(** When the provider refuses the sign-in, by an error answer or by a
    rejected call, [login] rejects with that error, records its message,
    keeps the identity and the tracking id, ends not loading, and makes
    no further call: no factor listing, no tracking row, no broadcast. *)
Theorem login_rejects_on_provider_error sb email password s e :
  signInWithPassword sb email password = Rejected e \/
  (exists r, signInWithPassword sb email password = Resolved r /\
             signin_error r = Some e) ->
  result_of (login sb email password s) = Throw e /\
  store_of (login sb email password s) = failed_with e s /\
  (trace_of (login sb email password s)
     = [ShowLoading "Logging in..."; CallSignInWithPassword email password] \/
   trace_of (login sb email password s)
     = [ShowLoading "Logging in..."; CallSignInWithPassword email password;
        UpdateToast "error" (message e)]).
Proof.
  unfold login, result_of, store_of, trace_of, try_finally, try_catch, bind,
    await, emit, dispatch, throw.
  intros [H | (r & H & He)]; rewrite H; cbn; [|rewrite He; cbn];
    repeat split; auto.
Qed.

Lemma login_rejects_on_provider_error_witness :
  result_of (login stored_aal1 "a@x.com" "wrong" alice_store)
    = Throw (mkError "Invalid login credentials") /\
  user (state (store_of (login stored_aal1 "a@x.com" "wrong" alice_store)))
    = Some alice.
Proof.
  destruct (login_rejects_on_provider_error stored_aal1 "a@x.com" "wrong"
              alice_store (mkError "Invalid login credentials")) as (H1 & H2 & _).
  - right. eexists. split; reflexivity.
  - split; [exact H1 | by rewrite H2].
Defined.

(** An accepted password for an unconfirmed email: [login] signs the
    provider session out straight away and never lists factors.  If the
    sign-out call resolves, with or without an error in its answer,
    [login] resolves with [needsVerification] and has written nothing but
    [isLoading := false]; if the sign-out call rejects, [login] rejects
    with that error. *)
Theorem login_unconfirmed_email_signs_out sb email password s r u :
  signInWithPassword sb email password = Resolved r ->
  signin_error r = None ->
  signin_user r = Some u ->
  truthy (su_email_confirmed_at u) = false ->
  trace_of (login sb email password s)
    = [ShowLoading "Logging in..."; CallSignInWithPassword email password;
       UpdateToast "error" "Please verify your email before logging in.";
       CallSignOut] /\
  match signOut sb with
  | Resolved _ =>
      result_of (login sb email password s) = Ok (mkLoginResult true None None) /\
      store_of (login sb email password s) = login_deferred s
  | Rejected e =>
      result_of (login sb email password s) = Throw e /\
      store_of (login sb email password s) = failed_with e s
  end.
Proof.
  intros Hsign Herr Huser Hconf.
  unfold login, result_of, store_of, trace_of, try_finally, try_catch, bind,
    await, emit, dispatch, throw.
  rewrite Hsign. cbn. rewrite Herr, Huser, Hconf. cbn.
  destruct (signOut sb) as [o|e]; cbn; repeat split.
Qed.

Lemma login_unconfirmed_email_signs_out_witness :
  let sb := mkSupabase
              (fun _ _ => Resolved (mkSignIn
                 (Some (mkSupabaseUser "u-2" (Some "b@x.com") None "{}" "{}"))
                 (Some alice_session) None))
              (signOut signout_fails) (getSession stored_aal1)
              (listFactors stored_aal1)
              (getAuthenticatorAssuranceLevel stored_aal1)
              (createSession stored_aal1) in
  result_of (login sb "b@x.com" "pw" initialStore)
    = Ok (mkLoginResult true None None).
Proof.
  intros sb.
  exact (proj1 (proj2 (login_unconfirmed_email_signs_out sb "b@x.com" "pw"
                         initialStore _ _ eq_refl eq_refl eq_refl eq_refl))).
Defined.

(** An accepted password, a confirmed email and no verified factor in
    the listing (an empty listing, only unverified factors, or a listing
    that came back without data): [login] commits the mapped user and the
    session, requests a tracking row and adopts its id when one comes
    back, logs the login, broadcasts LOGIN and resolves with
    [needsVerification: false]. *)
Theorem login_commits_without_verified_factor sb email password s r u fs :
  signInWithPassword sb email password = Resolved r ->
  signin_error r = None ->
  signin_user r = Some u ->
  truthy (su_email_confirmed_at u) = true ->
  listFactors sb = Resolved fs ->
  verifiedFactor fs = None ->
  result_of (login sb email password s) = Ok (mkLoginResult false None None) /\
  store_of (login sb email password s)
    = committed sb u (signin_session r) false (error (state s)) s /\
  trace_of (login sb email password s)
    = [ShowLoading "Logging in..."; CallSignInWithPassword email password;
       CallListFactors; CallCreateSession (su_id u);
       CallLogActivity (su_id u) "login"; Broadcast (mkMessage LOGIN None);
       UpdateToast "success" welcome].
Proof.
  intros Hsign Herr Huser Hconf Hlist Hnone.
  unfold login, result_of, store_of, trace_of, try_finally, try_catch, bind,
    await, emit, dispatch, throw, trackSession, logActivity, broadcast,
    setCurrentSessionId, committed.
  rewrite Hsign. cbn. rewrite Herr, Huser, Hconf. cbn.
  rewrite Hlist. cbn. rewrite Hnone. cbn.
  destruct (createSession sb (su_id u)) as [row|]; cbn; repeat split.
Qed.

Lemma login_commits_without_verified_factor_witness :
  user (state (store_of (login factors_unavailable "a@x.com" "secret" initialStore)))
    = Some alice /\
  currentSessionId (store_of (login factors_unavailable "a@x.com" "secret" initialStore))
    = Some "row-1".
Proof.
  destruct (login_commits_without_verified_factor factors_unavailable
              "a@x.com" "secret" initialStore _ alice_su _
              eq_refl eq_refl eq_refl eq_refl eq_refl eq_refl) as (_ & H & _).
  rewrite H. split; reflexivity.
Defined.

(** With a session that carries a user and the level ["aal2"],
    [completeMFALogin] resolves with [true]: it commits the session and
    the mapped user, requests a tracking row, logs the login and
    broadcasts LOGIN; [isLoading] and [error] are not touched. *)
Theorem completeMFALogin_commits_at_aal2 sb s g se u aal :
  getSession sb = Resolved g ->
  gs_session g = Some se ->
  session_user se = Some u ->
  getAuthenticatorAssuranceLevel sb = Resolved aal ->
  currentLevel aal = Some "aal2" ->
  result_of (completeMFALogin sb s) = Ok true /\
  store_of (completeMFALogin sb s)
    = committed sb u (Some se) (isLoading (state s)) (error (state s)) s /\
  trace_of (completeMFALogin sb s)
    = [CallGetSession; CallGetAuthenticatorAssuranceLevel;
       CallCreateSession (su_id u); CallLogActivity (su_id u) "login";
       Broadcast (mkMessage LOGIN None)].
Proof.
  intros Hg Hse Hu Haal Hlevel.
  unfold completeMFALogin, result_of, store_of, trace_of, try_catch, bind,
    await, emit, dispatch, throw, trackSession, logActivity, broadcast,
    setCurrentSessionId, committed.
  rewrite Hg. cbn. rewrite Hse, Hu. cbn. rewrite Haal. cbn.
  rewrite Hlevel. cbn.
  destruct (createSession sb (su_id u)) as [row|]; cbn; repeat split.
Qed.

Lemma completeMFALogin_commits_at_aal2_witness :
  result_of (completeMFALogin stored_aal2 initialStore) = Ok true /\
  user (state (store_of (completeMFALogin stored_aal2 initialStore)))
    = Some alice.
Proof.
  destruct (completeMFALogin_commits_at_aal2 stored_aal2 initialStore
              _ _ alice_su _ eq_refl eq_refl eq_refl eq_refl eq_refl)
    as (H1 & H2 & _).
  split; [exact H1 | by rewrite H2].
Defined.

End LoginPaths.

Section LoginEffects.
Import Auth Scenarios MoreScenarios Account.
Local Open Scope auth_scope.

Implicit Types (s : Store) (sb : Supabase).

(** [login] tells the other tabs exactly when it has committed: its
    trace contains a broadcast if and only if it resolves with
    [{needsVerification: false}] and no [needsMFA]; on every other path
    (refused sign-in, unconfirmed email, pending second factor, failed
    factor listing) nothing is broadcast. *)
Theorem login_broadcasts_iff_committed sb email password s :
  existsb is_broadcast (trace_of (login sb email password s)) = true <->
  result_of (login sb email password s) = Ok (mkLoginResult false None None).
Proof.
  unfold login, result_of, store_of, trace_of, try_finally, try_catch, bind,
    await, emit, dispatch, throw, trackSession, logActivity, broadcast,
    setCurrentSessionId, ret.
  destruct (signInWithPassword sb email password) as [r|e]; cbn;
    [|split; discriminate].
  destruct (signin_error r) as [e|]; cbn; [split; discriminate|].
  destruct (signin_user r) as [u|]; cbn; [|split; reflexivity].
  destruct (truthy (su_email_confirmed_at u)); cbn.
  - destruct (listFactors sb) as [fs|e]; cbn; [|split; discriminate].
    destruct (verifiedFactor fs) as [f|]; cbn; [split; discriminate|].
    destruct (createSession sb (su_id u)); cbn; split; reflexivity.
  - destruct (signOut sb) as [o|e]; cbn; split; discriminate.
Qed.

Lemma finally_not_loading {A} (body : M A) s :
  isLoading (state (store_of
    (try_finally body (dispatch (SET_LOADING false)) s))) = false.
Proof.
  unfold try_finally, dispatch, store_of.
  by destruct (body s) as [[r s1] t1].
Qed.

Lemma after_emit {A} e (m : M A) s :
  store_of (bind (emit e) (fun _ => m) s) = store_of (m s).
Proof.
  unfold bind, emit, store_of. cbn. by destruct (m s) as [[r s1] t1].
Qed.

(** Whether they resolve or reject, [login], [logout], the session
    restore, [register] and the push listener leave [isLoading] false. *)
Theorem operations_end_not_loading sb signUp email password ev sess s :
  isLoading (state (store_of (login sb email password s))) = false /\
  isLoading (state (store_of (logout sb s))) = false /\
  isLoading (state (store_of (loadInitialSession sb s))) = false /\
  isLoading (state (store_x (register sb signUp email password s))) = false /\
  isLoading (state (store_of (onAuthStateChange ev sess s))) = false.
Proof.
  repeat split.
  - unfold login. rewrite after_emit. apply finally_not_loading.
  - unfold logout. rewrite after_emit. apply finally_not_loading.
  - apply finally_not_loading.
  - unfold register, xbind, xtry_finally, lift, emit, dispatch, store_x. cbn.
    match goal with
    | |- context [xtry_catch ?b ?h s] => by destruct (xtry_catch b h s) as [[r s1] t1]
    end.
  - unfold onAuthStateChange, bind, dispatch, store_of, ret.
    destruct ev, sess as [se|]; cbn; try reflexivity;
      destruct (session_user se); reflexivity.
Qed.

(** The session restore never rejects.  When the query rejects it
    records ["Failed to get session"] and keeps the identity; when it
    resolves it adopts the stored session, or its absence, and the mapped
    user, and asks for a tracking row whenever the session carries a
    user, mapped or not. *)
Theorem loadInitialSession_outcomes sb s :
  result_of (loadInitialSession sb s) = Ok tt /\
  match getSession sb with
  | Rejected _ =>
      store_of (loadInitialSession sb s)
        = failed_with (mkError "Failed to get session") s /\
      trace_of (loadInitialSession sb s)
        = [CallGetSession; ConsoleError "Error getting session:"]
  | Resolved g =>
      match gs_session g with
      | None =>
          store_of (loadInitialSession sb s)
            = mkStore (mkAuthState None None false false (error (state s)))
                      (currentSessionId s) /\
          trace_of (loadInitialSession sb s) = [CallGetSession]
      | Some se =>
          match session_user se with
          | None =>
              store_of (loadInitialSession sb s)
                = mkStore (mkAuthState None (Some se) false false
                                       (error (state s)))
                          (currentSessionId s) /\
              trace_of (loadInitialSession sb s) = [CallGetSession]
          | Some u =>
              store_of (loadInitialSession sb s)
                = committed sb u (Some se) false (error (state s)) s /\
              trace_of (loadInitialSession sb s)
                = [CallGetSession; CallCreateSession (su_id u)]
          end
      end
  end.
Proof.
  unfold loadInitialSession, result_of, store_of, trace_of, try_finally,
    try_catch, bind, await, emit, dispatch, trackSession,
    setCurrentSessionId, ret, committed, failed_with.
  destruct (getSession sb) as [g|e]; cbn; [|repeat split].
  destruct (gs_session g) as [se|]; cbn; [|repeat split].
  destruct (session_user se) as [u|]; cbn; [|repeat split].
  destruct (createSession sb (su_id u)); cbn; repeat split.
Qed.

(** The push listener never rejects and makes no call.  [SIGNED_OUT]
    clears the identity and the tracking id whatever session comes with
    it; any other event that comes without a session writes nothing but
    [isLoading := false]; [TOKEN_REFRESHED] never changes the user. *)
Theorem onAuthStateChange_outcomes ev sess s :
  result_of (onAuthStateChange ev sess s) = Ok tt /\
  trace_of (onAuthStateChange ev sess s) = [] /\
  store_of (onAuthStateChange SIGNED_OUT sess s)
    = mkStore (mkAuthState None None false false (error (state s))) None /\
  match ev with
  | SIGNED_OUT => True
  | _ => store_of (onAuthStateChange ev None s) = login_deferred s
  end /\
  user (state (store_of (onAuthStateChange TOKEN_REFRESHED sess s)))
    = user (state s).
Proof.
  unfold onAuthStateChange, result_of, store_of, trace_of, bind, dispatch,
    setCurrentSessionId, ret, login_deferred.
  repeat split.
  - destruct ev, sess as [se|]; cbn; try reflexivity;
      destruct (session_user se); reflexivity.
  - destruct ev, sess as [se|]; cbn; try reflexivity;
      destruct (session_user se); reflexivity.
  - destruct ev; cbn; auto.
  - destruct sess; reflexivity.
Qed.

End LoginEffects.

(** ** More of the cross-tab relay *)

Section RelayMore.
Import Auth Scenarios MoreScenarios SessionSync.
Local Open Scope auth_scope.

(** A LOGIN message from another tab: the provider adopts whatever
    session the credential store holds (and the mapped user), without
    asking for the assurance level, and keeps the store as it is when
    there is no session or the query rejects.  The relay redirects to
    [/dashboard] exactly when the tab is on [/login], whether or not a
    session was found.  Nothing is broadcast and the handler does not
    throw.  (The callback starts the refresh without awaiting it; the
    store is the one reached once the refresh has settled.) *)
Theorem login_message_received sb pathname p s :
  let out := handleMessage (Some (onSyncMessage sb)) pathname
               (mkMessage LOGIN p) s in
  result_of out = Ok tt /\
  store_of out
    = match getSession sb with
      | Resolved g =>
          match gs_session g with
          | Some se =>
              mkStore (mkAuthState (mapSupabaseUser (session_user se)) (Some se)
                         (bool_decide (is_Some (mapSupabaseUser (session_user se))))
                         (isLoading (state s)) (error (state s)))
                      (currentSessionId s)
          | None => s
          end
      | Rejected _ => s
      end /\
  existsb is_navigate (trace_of out) = String.eqb pathname "/login" /\
  (if String.eqb pathname "/login"
   then In (Navigate "/dashboard" true) (trace_of out) else True) /\
  forallb (fun x => negb (is_broadcast x)) (trace_of out) = true /\
  ~ In CallGetAuthenticatorAssuranceLevel (trace_of out).
Proof.
  unfold handleMessage, onSyncMessage, refreshSession, result_of, store_of,
    trace_of, try_catch, bind, await, emit, dispatch, when, ret.
  cbn.
  destruct (getSession sb) as [g|e]; cbn;
    [destruct (gs_session g) as [se|]; cbn|];
    destruct (String.eqb pathname "/login"); cbn; destruct s;
    repeat split; auto; intros H; intuition discriminate.
Qed.

(** The remaining message types do not reach the auth state: with the
    provider's callback registered, AUTH_CHANGE only reloads the page,
    and PROFILE_UPDATE and SETTINGS_UPDATE have no effect at all. *)
Theorem other_messages_leave_store sb pathname m s :
  let out := handleMessage (Some (onSyncMessage sb)) pathname m s in
  match msg_type m with
  | LOGOUT | LOGIN => True
  | AUTH_CHANGE =>
      result_of out = Ok tt /\ store_of out = s /\ trace_of out = [Reload]
  | PROFILE_UPDATE | SETTINGS_UPDATE =>
      result_of out = Ok tt /\ store_of out = s /\ trace_of out = []
  end.
Proof.
  unfold handleMessage, onSyncMessage, result_of, store_of, trace_of, bind,
    emit, ret.
  destruct m as [[] p]; cbn; repeat split.
Qed.

(** [broadcast] uses one transport at most.  With [BroadcastChannel] it
    posts the message and leaves the shared store alone; without it, in
    a window, it writes and removes [auth_sync], so the key ends absent
    and a value stored there before is lost; with neither, the message
    is dropped without a trace. *)
Theorem broadcast_uses_one_transport pf stringify now m
    (ls : gmap string string) :
  let ops := broadcast pf stringify now m in
  ops = (if hasBroadcastChannel pf then [PostMessage m]
         else if hasWindow pf
              then [SetItem "auth_sync" (stringify m now); RemoveItem "auth_sync"]
              else []) /\
  (deliveries ops ls).2
    = (if hasBroadcastChannel pf then ls
       else if hasWindow pf then delete "auth_sync" ls else ls).
Proof.
  unfold broadcast.
  destruct (hasBroadcastChannel pf), (hasWindow pf); cbn; split;
    try reflexivity.
  by rewrite delete_insert_eq.
Qed.

(** Over the channel a broadcast is handled once: a listening tab with
    [BroadcastChannel] runs [handleMessage] on the message a sender with
    [BroadcastChannel] posts, with the same outcome, store and effects. *)
Theorem channel_message_handled_once
    stringify now m (ls : gmap string string) windowA parseA windowB parseB
    onMessage pathname s :
  let sender := mkPlatform true windowA parseA in
  let listener := mkPlatform true windowB parseB in
  receiveAll listener onMessage pathname
    (deliveries (broadcast sender stringify now m) ls).1 s
  = handleMessage onMessage pathname m s.
Proof.
  unfold broadcast. cbn [hasBroadcastChannel hasWindow].
  rewrite andb_false_r. cbn. unfold bind, ret.
  destruct (handleMessage onMessage pathname m s) as [[[[]|e] s1] t1]; cbn;
    [by rewrite app_nil_r | reflexivity].
Qed.

End RelayMore.

(** ** More of the route guards *)

Section GuardMore.
Import Auth Scenarios MoreScenarios ProtectedRoute Screens.

Lemma hasMFA_verifiedFactor fs :
  hasMFA fs = bool_decide (is_Some (verifiedFactor fs)).
Proof.
  unfold hasMFA, verifiedFactor.
  destruct (factors_data fs) as [[totp|]|]; try reflexivity.
  induction totp as [|f totp IH]; [reflexivity|].
  cbn. destruct (is_verified f); [reflexivity | exact IH].
Qed.

(** The outcome of a settled check.  Once [checkMFAStatus] has run for
    a present user, whatever the two cells held before (a stale
    [mfaVerified] included), the guard, not loading, renders its
    children exactly when in that run the session query resolved without
    error and with a session, the factor listing resolved, and, if a
    verified factor is listed, the level read ["aal2"]; in every other
    case it redirects to [/mfa-verify].  What the render function does
    on cells no check has written is not part of this statement. *)
Theorem guard_admits_only_checked sb u l location :
  (render (Some u) false location (checkMFAStatus sb (Some u) l) = Children <->
   exists g se fs,
     getSession sb = Resolved g /\ gs_error g = None /\
     gs_session g = Some se /\ listFactors sb = Resolved fs /\
     (if hasMFA fs
      then exists aal, getAuthenticatorAssuranceLevel sb = Resolved aal /\
                       currentLevel aal = Some "aal2"
      else True)) /\
  (render (Some u) false location (checkMFAStatus sb (Some u) l) = Children \/
   render (Some u) false location (checkMFAStatus sb (Some u) l)
     = NavigateTo "/mfa-verify" location).
Proof.
  unfold render, checkMFAStatus, setChecking, setMfaVerified. cbn.
  destruct (getSession sb) as [g|e]; cbn;
    [|split; [split; [discriminate | intros (? & ? & ? & [=] & _)] | by right]].
  destruct (gs_error g) as [e|] eqn:He; cbn;
    [split; [split; [discriminate | intros (? & ? & ? & [= <-] & ? & _); congruence]
            | by right]|].
  destruct (gs_session g) as [se|] eqn:Hse; cbn;
    [|split; [split; [discriminate
                     | intros (? & ? & ? & [= <-] & _ & ? & _); congruence]
             | by right]].
  destruct (listFactors sb) as [fs|e]; cbn;
    [|split; [split; [discriminate | intros (? & ? & ? & _ & _ & _ & [=] & _)]
             | by right]].
  destruct (hasMFA fs) eqn:Hm; cbn.
  - destruct (getAuthenticatorAssuranceLevel sb) as [aal|e]; cbn.
    + destruct (is_aal2 (currentLevel aal)) eqn:Ha; cbn.
      * split; [|by left]. split; [|reflexivity].
        intros _. exists g, se, fs. rewrite Hm. repeat split; auto.
        exists aal. split; [reflexivity|].
        unfold is_aal2 in Ha.
        destruct (currentLevel aal) as [lv|]; [|discriminate].
        by apply String.eqb_eq in Ha as ->.
      * split; [|by right]. split; [discriminate|].
        intros (? & ? & ? & _ & _ & _ & [= <-] & Haal). rewrite Hm in Haal.
        destruct Haal as (aal' & [= <-] & Hl). rewrite Hl in Ha.
        discriminate.
    + split; [|by right]. split; [discriminate|].
      intros (? & ? & ? & _ & _ & _ & [= <-] & Haal). rewrite Hm in Haal.
      by destruct Haal as (aal' & [=] & _).
  - split; [|by left]. split; [|reflexivity].
    intros _. exists g, se, fs. rewrite Hm. repeat split; auto.
Qed.

Lemma guard_admits_only_checked_witness :
  exists g se fs,
    getSession stored_aal2 = Resolved g /\ gs_error g = None /\
    gs_session g = Some se /\ listFactors stored_aal2 = Resolved fs /\
    (if hasMFA fs
     then exists aal, getAuthenticatorAssuranceLevel stored_aal2 = Resolved aal /\
                      currentLevel aal = Some "aal2"
     else True).
Proof.
  exact (proj1 (proj1 (guard_admits_only_checked stored_aal2 alice mounted
                         "/dashboard")) eq_refl).
Defined.

(** [login] and the guard read the factor listing alike.  For a
    primary-only session with an accepted password and a confirmed
    email: if a verified factor is listed, [login] stops at the second
    factor and the guard's check sends to [/mfa-verify]; if none is,
    [login] commits and the guard's check admits. *)
Theorem login_and_guard_agree
    sb email password s r u fs g se guarded l location :
  signInWithPassword sb email password = Resolved r ->
  signin_error r = None ->
  signin_user r = Some u ->
  truthy (su_email_confirmed_at u) = true ->
  listFactors sb = Resolved fs ->
  getSession sb = Resolved g -> gs_error g = None -> gs_session g = Some se ->
  queriedLevel sb <> Some "aal2" ->
  match verifiedFactor fs with
  | Some f =>
      result_of (login sb email password s)
        = Ok (mkLoginResult false (Some true) (Some (factor_id f))) /\
      render (Some guarded) false location (checkMFAStatus sb (Some guarded) l)
        = NavigateTo "/mfa-verify" location
  | None =>
      result_of (login sb email password s) = Ok (mkLoginResult false None None) /\
      render (Some guarded) false location (checkMFAStatus sb (Some guarded) l)
        = Children
  end.
Proof.
  intros Hsign Herr Huser Hconf Hlist Hg Hge Hse Hlevel.
  pose proof (hasMFA_verifiedFactor fs) as Hm.
  assert (Hrender : render (Some guarded) false location
                      (checkMFAStatus sb (Some guarded) l)
                    = if hasMFA fs then NavigateTo "/mfa-verify" location
                      else Children).
  { unfold render, checkMFAStatus, setChecking, setMfaVerified. cbn.
    rewrite Hg, Hge, Hse, Hlist. cbn. destruct (hasMFA fs); [|reflexivity].
    unfold queriedLevel in Hlevel.
    destruct (getAuthenticatorAssuranceLevel sb) as [aal|e]; [|reflexivity].
    unfold is_aal2. destruct (currentLevel aal) as [lv|]; [|reflexivity].
    destruct (String.eqb_spec lv "aal2"); [congruence | reflexivity]. }
  rewrite Hrender, Hm.
  unfold login, result_of, try_finally, try_catch, bind, await, emit,
    dispatch, throw, trackSession, logActivity, broadcast,
    setCurrentSessionId, ret.
  rewrite Hsign. cbn. rewrite Herr, Huser, Hconf. cbn. rewrite Hlist. cbn.
  destruct (verifiedFactor fs) as [f|]; cbn; [by split|].
  destruct (createSession sb (su_id u)); cbn; by split.
Qed.

Lemma login_and_guard_agree_witness :
  result_of (login accepts_with_mfa "a@x.com" "secret" initialStore)
    = Ok (mkLoginResult false (Some true) (Some "totp-1")) /\
  render (Some alice) false "/dashboard"
         (checkMFAStatus accepts_with_mfa (Some alice) mounted)
    = NavigateTo "/mfa-verify" "/dashboard".
Proof.
  assert (H : queriedLevel accepts_with_mfa <> Some "aal2") by (cbn; congruence).
  exact (login_and_guard_agree accepts_with_mfa "a@x.com" "secret" initialStore
           _ alice_su _ _ alice_session alice mounted "/dashboard"
           eq_refl eq_refl eq_refl eq_refl eq_refl eq_refl eq_refl eq_refl H).
Defined.

End GuardMore.

Section RoutesMore.
Import Auth Scenarios MoreScenarios ProtectedRoute Screens.

(** The two guards evaluated on one and the same auth state.  If that
    state is coherent, they do not redirect to each other: when the
    protected guard redirects to [/login] the public guard shows the
    login page, and when the public guard redirects to [/dashboard] the
    protected guard does not redirect to [/login]; a present user is
    never sent to [/login] by the protected guard.  (Between two renders
    the state may change; this says nothing about such a sequence.) *)
Theorem guards_agree_on_one_state st location l :
  coherent st ->
  (view st location l = NavigateTo "/login" location ->
     PublicRoute (isAuthenticated st) (isLoading st) = PublicChildren) /\
  (PublicRoute (isAuthenticated st) (isLoading st) = ToDashboard ->
     view st location l <> NavigateTo "/login" location) /\
  (is_Some (user st) -> view st location l <> NavigateTo "/login" location).
Proof.
  unfold coherent, view, render, PublicRoute. intros Hc.
  destruct (isLoading st), (checking l), (user st) as [u|],
    (isAuthenticated st), (mfaVerified l) as [[]|];
    cbn in *; repeat split; try congruence; try discriminate;
    try (intros [? [=]]).
Qed.

Lemma guards_agree_on_one_state_witness :
  PublicRoute (isAuthenticated initialState) (isLoading initialState)
    = PublicChildren.
Proof.
  refine (proj1 (guards_agree_on_one_state initialState "/dashboard"
                   (mkLocal None false) _) _); reflexivity.
Defined.

End RoutesMore.

(** ** The login page *)

Section LoginPageMore.
Import Auth Scenarios MoreScenarios LoginPage Screens.



(** A refused sign-in on the form: the page shows the provider's
    message, or ["Invalid email or password"] when that message is
    empty, stays on the form it was on, keeps the identity, and navigates
    nowhere. *)
Theorem onSubmit_shows_provider_error sb data w e :
  signInWithPassword sb (form_email data) (form_password data) = Rejected e \/
  (exists r, signInWithPassword sb (form_email data) (form_password data)
               = Resolved r /\ signin_error r = Some e) ->
  let out := onSubmit sb data w in
  serverError (page out.1)
    = Some (if String.eqb (message e) "" then "Invalid email or password"
            else message e) /\
  needsMFA_shown (page out.1) = needsMFA_shown (page w) /\
  user (state (store out.1)) = user (state (store w)) /\
  existsb is_navigate out.2 = false.
Proof.
  unfold onSubmit, login, try_finally, try_catch, bind, await, emit, dispatch,
    throw.
  intros [H | (r & H & He)]; rewrite H; cbn; [|rewrite He; cbn];
    repeat split.
Qed.

Lemma onSubmit_shows_provider_error_witness :
  serverError (page (onSubmit stored_aal1 sixth_attempt locked_world).1)
    = Some "Invalid login credentials".
Proof.
  refine (proj1 (onSubmit_shows_provider_error stored_aal1 sixth_attempt
                   locked_world (mkError "Invalid login credentials") _)).
  right. eexists. split; reflexivity.
Defined.



End LoginPageMore.

(** ** Account operations *)

Section AccountMore.
Import Auth Scenarios MoreScenarios Account.

Implicit Types (s : Store) (sb : Supabase).

(** [getMFAStatus] never rejects and never writes to the store; it
    looks at the first listed TOTP factor only.  So an account whose
    first factor is unverified and a later one verified is reported as
    not enrolled, with the first factor's id, while [login] for the same
    listing stops and asks for the second factor. *)
Theorem getMFAStatus_reads_first_factor
    sb email password s r u fs f0 rest f :
  signInWithPassword sb email password = Resolved r ->
  signin_error r = None ->
  signin_user r = Some u ->
  truthy (su_email_confirmed_at u) = true ->
  listFactors sb = Resolved fs ->
  factors_data fs = Some (Some (f0 :: rest)) ->
  is_verified f0 = false ->
  List.find is_verified rest = Some f ->
  result_of (getMFAStatus sb None s)
    = Ok (mkMFAStatus false (Some (factor_id f0))) /\
  store_of (getMFAStatus sb None s) = s /\
  result_of (login sb email password s)
    = Ok (mkLoginResult false (Some true) (Some (factor_id f))).
Proof.
  intros Hsign Herr Huser Hconf Hlist Hd H0 Hf.
  unfold getMFAStatus, login, result_of, store_of, try_finally, try_catch,
    bind, await, emit, dispatch, throw, ret, verifiedFactor.
  rewrite Hlist, Hsign. cbn. rewrite Hd, Herr, Huser, Hconf. cbn.
  rewrite H0, Hf. cbn. repeat split.
Qed.

Lemma getMFAStatus_reads_first_factor_witness :
  result_of (getMFAStatus second_factor_verified None initialStore)
    = Ok (mkMFAStatus false (Some "totp-0")) /\
  result_of (login second_factor_verified "a@x.com" "secret" initialStore)
    = Ok (mkLoginResult false (Some true) (Some "totp-1")).
Proof.
  destruct (getMFAStatus_reads_first_factor second_factor_verified
              "a@x.com" "secret" initialStore _ alice_su _
              (mkFactor "totp-0" "unverified") _ (mkFactor "totp-1" "verified")
              eq_refl eq_refl eq_refl eq_refl eq_refl eq_refl eq_refl eq_refl)
    as (H1 & _ & H3).
  exact (conj H1 H3).
Defined.

(** [getMFAStatus] on its failure paths: an error answer, a listing
    without data, or a rejected call all resolve with
    [{enrolled: false}] and no factor id, after logging the error. *)
Theorem getMFAStatus_never_rejects sb listError s :
  exists status,
    result_of (getMFAStatus sb listError s) = Ok status /\
    store_of (getMFAStatus sb listError s) = s /\
    match listFactors sb, listError with
    | Resolved fs, None =>
        match factors_data fs with
        | Some (Some _) => True
        | _ => status = mkMFAStatus false None
        end
    | _, _ => status = mkMFAStatus false None
    end.
Proof.
  unfold getMFAStatus, result_of, store_of, try_catch, bind, await, emit,
    throw, ret.
  destruct (listFactors sb) as [fs|e], listError as [e'|]; cbn;
    try (eexists; repeat split; by destruct s).
  destruct (factors_data fs) as [[totp|]|]; cbn;
    eexists; repeat split; by destruct s.
Qed.

(** [signOutAllOtherSessions] needs both a user and a tracking id: with
    either missing it rejects with ["No active session"] before any
    remote call; with both it deletes the other rows under the user's id
    and the current tracking id and logs the logout.  It never writes to
    the store and never signs the current session out. *)
Theorem signOutAllOtherSessions_outcomes s :
  store_x (signOutAllOtherSessions s) = s /\
  ~ In (Known CallSignOut) (calls_x (signOutAllOtherSessions s)) /\
  match user (state s), truthy (currentSessionId s) with
  | Some u, true =>
      result_x (signOutAllOtherSessions s) = Ok tt /\
      calls_x (signOutAllOtherSessions s)
        = [Known (ShowLoading "Signing out other sessions...");
           CallDeleteOtherSessions (id u) (default "" (currentSessionId s));
           Known (CallLogActivity (id u) "logout");
           Known (UpdateToast "success" "All other sessions signed out!")]
  | _, _ =>
      result_x (signOutAllOtherSessions s) = Throw (mkError "No active session") /\
      calls_x (signOutAllOtherSessions s)
        = [Known (ShowLoading "Signing out other sessions...");
           Known (UpdateToast "error" "Failed to sign out other sessions")]
  end.
Proof.
  unfold signOutAllOtherSessions, result_x, store_x, calls_x, xbind,
    xtry_catch, xread, xcall, xthrow, lift, emit, logActivity.
  cbn.
  destruct (user (state s)) as [u|], (truthy (currentSessionId s)); cbn;
    repeat split; try (intros H; intuition discriminate).
Qed.

(** [deleteUserAccount] logs the logout and deletes the tracking row
    before it signs out.  If the sign-out then fails, by an error answer
    or a rejected call, it rejects with that error and the store is
    exactly as before, tracking id included, although the row is gone;
    if it succeeds, the identity and the tracking id are cleared and
    LOGOUT is broadcast. *)
Theorem deleteUserAccount_outcomes sb s :
  let before_signOut :=
    Known (ShowLoading "Deleting account...")
    :: match user (state s) with
       | Some u => [Known (CallLogActivity (id u) "logout")]
       | None => []
       end
    ++ (if truthy (currentSessionId s)
        then [CallDeleteSession (default "" (currentSessionId s))]
        else [])
    ++ [Known CallSignOut] in
  match signOut sb with
  | Resolved None =>
      result_x (deleteUserAccount sb s) = Ok tt /\
      store_x (deleteUserAccount sb s)
        = mkStore (mkAuthState None None false (isLoading (state s))
                               (error (state s))) None /\
      calls_x (deleteUserAccount sb s)
        = before_signOut
          ++ [Known (Broadcast (mkMessage LOGOUT None));
              Known (UpdateToast "success" "Account deleted successfully!")]
  | Resolved (Some e) =>
      result_x (deleteUserAccount sb s) = Throw e /\
      store_x (deleteUserAccount sb s) = s /\
      calls_x (deleteUserAccount sb s)
        = before_signOut
          ++ [Known (UpdateToast "error" (message e));
              ShowError "Failed to delete account."]
  | Rejected e =>
      result_x (deleteUserAccount sb s) = Throw e /\
      store_x (deleteUserAccount sb s) = s /\
      calls_x (deleteUserAccount sb s)
        = before_signOut ++ [ShowError "Failed to delete account."]
  end.
Proof.
  unfold deleteUserAccount, result_x, store_x, calls_x, xbind, xtry_catch,
    xread, xcall, xthrow, xret, lift, emit, logActivity, await, dispatch,
    setCurrentSessionId, broadcast.
  cbn.
  destruct (user (state s)) as [u|], (truthy (currentSessionId s)),
    (signOut sb) as [[e|]|e]; cbn; repeat split; by destruct s.
Qed.

(** [register] by its answer.  A refused sign-up, by an error answer or
    a rejected call, rejects with that error and records its message,
    keeping the identity.  An accepted one that needs verification (no
    session, or a user with an empty identity list) resolves with
    [needsVerification: true] and leaves the identity alone, with the
    earlier error cleared.  Otherwise the user and session are
    committed.  On no path does [register] broadcast to other tabs. *)
Theorem register_outcomes sb signUp email password s :
  forallb (fun c => match c with Known (Broadcast _) => false | _ => true end)
          (calls_x (register sb signUp email password s)) = true /\
  match signUp email password with
  | Rejected e =>
      result_x (register sb signUp email password s) = Throw e /\
      store_x (register sb signUp email password s) = failed_with e s
  | Resolved r =>
      match signup_error r with
      | Some e =>
          result_x (register sb signUp email password s) = Throw e /\
          store_x (register sb signUp email password s) = failed_with e s
      | None =>
          if signup_needsVerification r then
            result_x (register sb signUp email password s)
              = Ok (mkRegisterResult true email) /\
            store_x (register sb signUp email password s)
              = mkStore (mkAuthState (user (state s)) (session (state s))
                                     (isAuthenticated (state s)) false None)
                        (currentSessionId s)
          else
            result_x (register sb signUp email password s)
              = Ok (mkRegisterResult false email) /\
            user (state (store_x (register sb signUp email password s)))
              = mapSupabaseUser (signup_user r) /\
            session (state (store_x (register sb signUp email password s)))
              = signup_session r
      end
  end.
Proof.
  unfold register, result_x, store_x, calls_x, xbind, xtry_finally, xtry_catch,
    xcall, xthrow, xret, lift, emit, logActivity, dispatch, trackSession,
    setCurrentSessionId, bind, failed_with.
  cbn.
  destruct (signUp email password) as [r|e]; cbn; [|repeat split].
  destruct (signup_error r) as [e|]; cbn; [repeat split|].
  destruct (signup_needsVerification r); cbn; [repeat split|].
  destruct (signup_user r) as [u|]; cbn; [|repeat split].
  destruct (createSession sb (su_id u)); cbn; repeat split.
Qed.

End AccountMore.
